(** * AI vs Human text detector: the decision logic of [app.py]

    A shallow embedding of [src/app.py]:
    - Python [float] is IEEE 754 binary64, modelled by the Standard
      Library's executable specification [SpecFloat] at precision 53 and
      [emax = 1024], so that rounding, signed zeros, infinities and NaN
      behave as they do in the interpreter;
    - Python [str] is a sequence of Unicode code points, with
      [str.split()] and [str.strip()] cutting at the code points for which
      [str.isspace] holds;
    - the dictionary built in [predict_ai_probability] is a [gmap] from
      labels to scores; the [indicators] dictionary, which the page walks in
      insertion order, is an association list;
    - the Streamlit script is a computation in a small trace-and-exception
      monad: every widget call, every model inference and every entry into
      one of the two functions of the file is logged in order. *)

From Stdlib Require Import ZArith Lia List Bool Ascii String.
From Stdlib Require Import Floats.SpecFloat.
From stdpp Require Import gmap strings.

Open Scope string_scope.

(** ** Binary64 floating point *)

Module Float64.

Definition prec : Z := 53.
Definition emax : Z := 1024.

Definition float := spec_float.

Definition fadd : float -> float -> float := SFadd prec emax.
Definition fsub : float -> float -> float := SFsub prec emax.
Definition fmul : float -> float -> float := SFmul prec emax.
Definition fdiv : float -> float -> float := SFdiv prec emax.
Definition fabs : float -> float := SFabs.
Definition fopp : float -> float := SFopp.
Definition fltb : float -> float -> bool := SFltb.
Definition fleb : float -> float -> bool := SFleb.

(** [x >= y] in Python is [y <= x]. *)
Definition fgeb (x y : float) : bool := fleb y x.

(** A value the interpreter can hold: canonical mantissa, exponent in
    range. *)
Definition valid (x : float) : bool := valid_binary prec emax x.

(** Conversion of a (small) Python [int] to [float]. *)
Definition of_int (z : Z) : float := binary_normalize prec emax z 0 false.

(** The literals of the source, as the nearest binary64 values. *)
Definition zero : float := S754_zero false.
Definition one : float := S754_finite false 4503599627370496 (-52).
Definition f0_5 : float := S754_finite false 4503599627370496 (-53).
Definition f0_1 : float := S754_finite false 7205759403792794 (-56).
Definition f0_15 : float := S754_finite false 5404319552844595 (-55).
Definition f0_2 : float := S754_finite false 7205759403792794 (-55).

End Float64.
Import Float64.

(** ** Strings *)

(** A Python string: its code points. *)
Definition char := N.
Definition str := list char.

(** [str.isspace] on one code point ([Py_UNICODE_ISSPACE]): the ASCII
    controls TAB..CR and FS..US, the space, and the Unicode code points of
    bidirectional class WS, B or S or of category Zs. *)
Definition isspace (c : char) : bool :=
  ((9 <=? c) && (c <=? 13) || (28 <=? c) && (c <=? 32)
   || (c =? 133) || (c =? 160) || (c =? 5760)
   || (8192 <=? c) && (c <=? 8202)
   || (c =? 8232) || (c =? 8233) || (c =? 8239) || (c =? 8287)
   || (c =? 12288))%N.

(** [text.split()]: scan left to right; [tok] is the token being read, in
    reverse; a whitespace code point ends it, runs of whitespace produce no
    empty token. *)
Fixpoint split_ws (s : str) (tok : str) : list str :=
  match s with
  | [] => match tok with [] => [] | _ => [rev tok] end
  | c :: s' =>
      if isspace c then
        match tok with
        | [] => split_ws s' []
        | _ => rev tok :: split_ws s' []
        end
      else split_ws s' (c :: tok)
  end.

Definition split (s : str) : list str := split_ws s [].

(** [text.strip()]. *)
Fixpoint lstrip (s : str) : str :=
  match s with
  | [] => []
  | c :: s' => if isspace c then lstrip s' else s
  end.

Definition rstrip (s : str) : str := rev (lstrip (rev s)).
Definition strip (s : str) : str := rstrip (lstrip s).

(** Truth value of a string: non-empty. *)
Definition truthy (s : str) : bool :=
  match s with [] => false | _ => true end.

(** Code points of an ASCII literal. *)
Fixpoint of_string (s : string) : str :=
  match s with
  | EmptyString => []
  | String a s' => N_of_ascii a :: of_string s'
  end.

(** ** Uncertainty estimation *)

Definition Low_Confidence : string := "🔴 Low Confidence".
Definition Medium_Confidence : string := "🟡 Medium Confidence".
Definition High_Confidence : string := "🟢 High Confidence".

Definition short_text_key : string := "Short text length (<100 words)".
Definition near_50_key : string := "Prediction near 50%".
Definition low_margin_key : string := "Low prediction margin".

(** The four results, in the order of the returned tuple. *)
Definition estimate : Type := string * list (string * bool) * nat * float.

Definition estimate_confidence (text : str) (ai_prob : float) : estimate :=
  let word_count := length (split text) in
  let margin := fabs (fsub ai_prob f0_5) in
  let indicators :=
    [ (short_text_key, (word_count <? 100)%nat);
      (near_50_key, fltb margin f0_1);
      (low_margin_key, fltb margin f0_15) ] in
  let confidence :=
    if (word_count <? 100)%nat || fltb margin f0_1 then Low_Confidence
    else if (word_count <? 200)%nat || fltb margin f0_2 then Medium_Confidence
    else High_Confidence in
  (confidence, indicators, word_count, margin).

Definition est_confidence (r : estimate) : string := r.1.1.1.
Definition est_indicators (r : estimate) : list (string * bool) := r.1.1.2.
Definition est_word_count (r : estimate) : nat := r.1.2.
Definition est_margin (r : estimate) : float := r.2.

(** ** The page as a traced computation *)

(** A formatted string: literal text and the values interpolated in it,
    each with its format ([:.2f], [:.3f], or the default for an [int] or a
    [str]). *)
Inductive piece :=
| Lit (s : string)
| Fixed2 (x : float)
| Fixed3 (x : float)
| Int (n : nat).

Definition fstring := list piece.

Inductive widget :=
| title (body : string)
| caption (body : string)
| text_area (label : string) (height : nat) (placeholder : string)
| button (label : string)
| header (body : string)
| metric (label : string) (value : fstring)
| divider
| markdown (body : fstring)
| subheader (body : string)
| bar_chart (data : list (string * float))
| info (body : string)
| warning (body : string).

Inductive event :=
| set_page_config (page_title layout : string)
| load_detector
| enter (function : string)
| inference (text : str)
| main (w : widget)
| sidebar (w : widget).

Inductive exn :=
| IndexError
| InferenceError.

(** A computation yields a value or an exception, and the events it
    produced, oldest first. *)
Definition M (A : Type) : Type := (A + exn) * list event.

Global Instance M_ret : MRet M := λ A a, (inl a, []).

Global Instance M_bind : MBind M := λ A B k m,
  match m with
  | (inl a, t) => let '(r, t') := k a in (r, (t ++ t')%list)
  | (inr e, t) => (inr e, t)
  end.

Definition emit (e : event) : M unit := (inl tt, [e]).
Definition raise {A} (e : exn) : M A := (inr e, []).

Definition trace {A} (m : M A) : list event := m.2.
Definition outcome {A} (m : M A) : A + exn := m.1.

Fixpoint for_each {A} (l : list A) (body : A -> M unit) : M unit :=
  match l with
  | [] => mret tt
  | x :: l' => body x ;; for_each l' body
  end.

(** One [{label, score}] dictionary of the classifier's output. *)
Record item := { label : string; score : float }.

Definition system_limitations : string :=
  "
            • This system provides probabilistic estimation, not definitive judgment  
            • Short texts may lead to unreliable predictions  
            • Mixed human-AI writing cannot be accurately detected  
            • Results may vary across languages and domains  
            ".

(** [human_prob = 1 - ai_prob]. *)
Definition human_prob (ai_prob : float) : float := fsub (of_int 1) ai_prob.

Section App.

(** The text-classification pipeline: for one input string it returns a
    list of results, each the list of per-label scores, or fails. *)
Variable detector : str -> list (list item) + exn.

Definition call_detector (text : str) : M (list (list item)) :=
  emit (inference text) ;;
  match detector text with
  | inl r => mret r
  | inr e => raise e
  end.

(** [l[0]]. *)
Definition index0 {A} (l : list A) : M A :=
  match l with
  | x :: _ => mret x
  | [] => raise IndexError
  end.

(** [{item["label"]: item["score"] for item in outputs}]: a later item
    replaces an earlier one with the same label. *)
Definition scores_of (outputs : list item) : gmap string float :=
  foldl (λ d it, <[label it := score it]> d) ∅ outputs.

Definition predict_ai_probability (text : str) : M float :=
  emit (enter "predict_ai_probability") ;;
  res ← call_detector text;
  outputs ← index0 res;
  let scores := scores_of outputs in
  mret (default f0_5 (scores !! "AI")).

Definition run_estimate_confidence (text : str) (ai_prob : float)
  : M estimate :=
  emit (enter "estimate_confidence") ;;
  mret (estimate_confidence text ai_prob).

Definition show_result (ai_prob : float) (r : estimate) : M unit :=
  let '(confidence, indicators, word_count, margin) := r in
  emit (sidebar (header "📊 Detection Result")) ;;
  emit (sidebar (metric "AI Probability"
                   [Fixed2 (fmul ai_prob (of_int 100)); Lit "%"])) ;;
  emit (sidebar (metric "Human Probability"
                   [Fixed2 (fmul (human_prob ai_prob) (of_int 100)); Lit "%"])) ;;
  emit (sidebar divider) ;;
  emit (sidebar (header "🧠 Model Uncertainty")) ;;
  emit (sidebar (markdown [Lit "**Confidence Level:** "; Lit confidence])) ;;
  emit (sidebar (markdown [Lit "- Word count: **"; Int word_count; Lit "**"])) ;;
  emit (sidebar (markdown [Lit "- Prediction margin: **"; Fixed3 margin; Lit "**"])) ;;
  emit (sidebar (markdown [Lit "**Uncertainty Indicators:**"])) ;;
  for_each indicators (λ kv,
    if kv.2 then emit (sidebar (markdown [Lit "✅ "; Lit kv.1]))
    else emit (sidebar (markdown [Lit "❌ "; Lit kv.1]))) ;;
  emit (sidebar divider) ;;
  emit (sidebar (header "⚠️ System Limitations")) ;;
  emit (sidebar (markdown [Lit system_limitations])) ;;
  emit (main (subheader "📈 Probability Visualization")) ;;
  emit (main (bar_chart [("AI", ai_prob); ("Human", human_prob ai_prob)])) ;;
  emit (main (info "Interpret results with caution. Prediction confidence depends on text length and prediction margin.")).

(** One run of the script, from top to bottom, for the text the text area
    holds and the state of the button. *)
Definition app (user_text : str) (analyze_btn : bool) : M unit :=
  emit (set_page_config "AI vs Human Text Detector" "wide") ;;
  emit load_detector ;;
  emit (main (title "🧠 AI vs Human Text Detection")) ;;
  emit (main (caption "This system estimates the likelihood of AI-generated text. It does not provide definitive authorship judgment.")) ;;
  emit (main (text_area "✏️ Enter text to analyze" 220
                "Paste or type your text here...")) ;;
  emit (main (button "🔍 Analyze Text")) ;;
  if analyze_btn && truthy (strip user_text) then
    ai_prob ← predict_ai_probability user_text;
    r ← run_estimate_confidence user_text ai_prob;
    show_result ai_prob r
  else if analyze_btn then
    emit (main (warning "Please enter some text before analysis."))
  else mret tt.

End App.

(** ** The specification's vocabulary *)

(** Number of whitespace-delimited tokens: the maximal runs of code points
    that are not whitespace. [in_token] tells whether the code point just
    before [s] belongs to a token. *)
Fixpoint count_runs (in_token : bool) (s : str) : nat :=
  match s with
  | [] => 0
  | c :: s' =>
      if isspace c then count_runs false s'
      else (if in_token then 0 else 1) + count_runs true s'
  end.

Definition count_tokens (s : str) : nat := count_runs false s.

(** Ordered rules, the first whose condition holds decides. *)
Fixpoint first_match {A} (rules : list (bool * A)) (otherwise : A) : A :=
  match rules with
  | [] => otherwise
  | (c, a) :: rules' => if c then a else first_match rules' otherwise
  end.

Definition tier_rules (word_count : nat) (margin : float) : string :=
  first_match
    [ ((word_count <? 100)%nat || fltb margin f0_1, Low_Confidence);
      ((word_count <? 200)%nat || fltb margin f0_2, Medium_Confidence) ]
    High_Confidence.

(** Empty, or whitespace only. *)
Definition blank (s : str) : bool := forallb isspace s.

(** Events of an inference: entering one of the two functions, or calling
    the model. *)
Definition is_inference (e : event) : bool :=
  match e with
  | enter _ | inference _ => true
  | _ => false
  end.

(** Events that show a probability. *)
Definition shows_probability (e : event) : bool :=
  match e with
  | sidebar (metric _ _) | main (bar_chart _) => true
  | _ => false
  end.

(** What every run shows before it looks at the button. *)
Definition page_top : list event :=
  [ set_page_config "AI vs Human Text Detector" "wide";
    load_detector;
    main (title "🧠 AI vs Human Text Detection");
    main (caption "This system estimates the likelihood of AI-generated text. It does not provide definitive authorship judgment.");
    main (text_area "✏️ Enter text to analyze" 220
            "Paste or type your text here...");
    main (button "🔍 Analyze Text") ].

(** [n] words of one letter, separated by single spaces. *)
Definition words (n : nat) : str := concat (repeat (of_string "w ") n).

(** The binary64 value next above 0.1, printed 0.10000000000000002. *)
Definition above_0_1 : float := S754_finite false 7205759403792795 (-56).

(** [q'] is the integer nearest to [m / 2 ^ k], the even one of the two when
    [m] lies halfway. *)
Definition rounds_to (m k q' : Z) : Prop :=
  let q := (m / 2 ^ k)%Z in
  let rem := (m mod 2 ^ k)%Z in
  (q' = q /\ (2 * rem <= 2 ^ k)%Z /\ ((2 * rem = 2 ^ k)%Z -> Z.even q = true))
  \/ (q' = (q + 1)%Z /\ (2 ^ k <= 2 * rem)%Z
      /\ ((2 * rem = 2 ^ k)%Z -> Z.even q = false)).

(** 0.25, 0.62, 0.66 and 0.95 as the interpreter reads them. *)
Definition f0_25 : float := S754_finite false 4503599627370496 (-54).
Definition f0_62 : float := S754_finite false 5584463537939415 (-53).
Definition f0_66 : float := S754_finite false 5944751508129055 (-53).
Definition f0_95 : float := S754_finite false 8556839292003942 (-53).

(** The tiers in increasing order of confidence. *)
Definition tier_rank (confidence : string) : nat :=
  if String.eqb confidence Low_Confidence then 0
  else if String.eqb confidence Medium_Confidence then 1
  else 2.

(** The indicator a line of the page shows, when it is an indicator line: a
    check mark or a cross, then the indicator's name. *)
Definition indicator_line (e : event) : option (string * bool) :=
  match e with
  | sidebar (markdown [Lit mark; Lit k]) =>
      if String.eqb mark "✅ " then Some (k, true)
      else if String.eqb mark "❌ " then Some (k, false)
      else None
  | _ => None
  end.

Definition indicator_lines (t : list event) : list (string * bool) :=
  omap indicator_line t.

(** The texts the model was run on, in order. *)
Definition inferences (t : list event) : list str :=
  omap (fun e => match e with inference x => Some x | _ => None end) t.

(** The functions entered, in order. *)
Definition entered (t : list event) : list string :=
  omap (fun e => match e with enter f => Some f | _ => None end) t.

(** A float that is not a number or not finite. *)
Definition not_finite (x : float) : bool :=
  match x with
  | S754_nan | S754_infinity _ => true
  | _ => false
  end.

(** A float with its sign replaced. *)
Definition with_sign (s : bool) (x : float) : float :=
  match x with
  | S754_zero _ => S754_zero s
  | S754_infinity _ => S754_infinity s
  | S754_nan => S754_nan
  | S754_finite _ m e => S754_finite s m e
  end.

(** The warning of the page. *)
Definition is_warning (e : event) : bool :=
  match e with
  | main (warning _) => true
  | _ => false
  end.

(** [d] lies within a quarter of 2^-53 of a multiple of 2^-53: with
    [L = 2^-53] counted in units of the last place of [d], the remainder of
    the mantissa by [L] is at most [L / 4] or at least [3 L / 4]. Every
    multiple of 2^-53 is such, and so is every float of magnitude at least
    1/2. *)
Definition near_grid (d : float) : bool :=
  match d with
  | S754_zero _ => true
  | S754_finite _ m e =>
      if (-53 <=? e)%Z then true
      else
        let L := (2 ^ (-53 - e))%Z in
        let r := (Z.pos m mod L)%Z in
        ((4 * r <=? L) || (3 * L <=? 4 * r))%Z
  | _ => false
  end.

(** The non-negative float [a * 2^e], for [a] of at most 53 digits: the
    mantissa is shifted left to 53 digits. *)
Definition normal_form (a e : Z) : float :=
  match a with
  | Z.pos p =>
      S754_finite false
        (Z.to_pos (Z.pos p * 2 ^ (53 - Z.pos (digits2_pos p))))
        (e + Z.pos (digits2_pos p) - 53)
  | _ => S754_zero false
  end.

(** * Properties *)

(** ** Comparisons of binary64 values *)

Section Comparisons.

Lemma fltb_pos_finite (m c : positive) (e ec : Z) :
  fltb (S754_finite false m e) (S754_finite false c ec) = true
  <-> (e < ec \/ (e = ec /\ Z.pos m < Z.pos c))%Z.
Proof.
  unfold fltb, SFltb, SFcompare.
  destruct (Z.compare_spec e ec) as [He | He | He].
  - change (Pos.compare_cont Eq m c) with (m ?= c)%positive.
    destruct (Pos.compare_spec m c) as [Hm | Hm | Hm]; split; intros Hx;
      try discriminate;
      try reflexivity; lia.
  - split; [intros _; lia | reflexivity].
  - split; [discriminate | lia].
Qed.

Lemma fleb_pos_finite (m c : positive) (e ec : Z) :
  fleb (S754_finite false m e) (S754_finite false c ec) = true
  <-> (e < ec \/ (e = ec /\ Z.pos m <= Z.pos c))%Z.
Proof.
  unfold fleb, SFleb, SFcompare.
  destruct (Z.compare_spec e ec) as [He | He | He].
  - change (Pos.compare_cont Eq m c) with (m ?= c)%positive.
    destruct (Pos.compare_spec m c) as [Hm | Hm | Hm]; split; intros Hx;
      try discriminate;
      try reflexivity; lia.
  - split; [intros _; lia | reflexivity].
  - split; [discriminate | lia].
Qed.

(** A margin below 0.15 is below 0.2. *)
Lemma fltb_0_15_0_2 (x : float) :
  fltb x f0_15 = true -> fltb x f0_2 = true.
Proof.
  destruct x as [[] | [] | | [] m e]; try easy.
  unfold f0_15, f0_2. rewrite !fltb_pos_finite. lia.
Qed.

(** A margin below 0.1 is below 0.2. *)
Lemma fltb_0_1_0_2 (x : float) :
  fltb x f0_1 = true -> fltb x f0_2 = true.
Proof.
  destruct x as [[] | [] | | [] m e]; try easy.
  unfold f0_1, f0_2. rewrite !fltb_pos_finite. lia.
Qed.

(** [x >= y] excludes [x < y]. *)
Lemma fgeb_not_fltb (x y : float) :
  fgeb x y = true -> fltb x y = false.
Proof.
  unfold fgeb, fleb, fltb, SFleb, SFltb.
  destruct x as [[] | [] | | [] mx ex], y as [[] | [] | | [] my ey];
    try easy; unfold SFcompare;
    rewrite (Z.compare_antisym ex ey);
    change (Pos.compare_cont Eq mx my) with (mx ?= my)%positive;
    change (Pos.compare_cont Eq my mx) with (my ?= mx)%positive;
    rewrite (Pos.compare_antisym mx my);
    destruct (ex ?= ey)%Z; simpl; try easy;
    destruct (mx ?= my)%positive; easy.
Qed.

(** The constants are the binary64 values nearest to the decimal literals:
    each is the correctly rounded quotient of two small integers. *)
Lemma literals_correctly_rounded :
  one = of_int 1
  /\ f0_5 = fdiv (of_int 5) (of_int 10)
  /\ f0_1 = fdiv (of_int 1) (of_int 10)
  /\ f0_15 = fdiv (of_int 15) (of_int 100)
  /\ f0_2 = fdiv (of_int 2) (of_int 10)
  /\ f0_25 = fdiv (of_int 25) (of_int 100)
  /\ f0_62 = fdiv (of_int 62) (of_int 100)
  /\ f0_66 = fdiv (of_int 66) (of_int 100)
  /\ f0_95 = fdiv (of_int 95) (of_int 100)
  /\ above_0_1 = SFsucc prec emax f0_1
  /\ forallb valid
       [one; f0_5; f0_1; f0_15; f0_2; f0_25; f0_62; f0_66; f0_95; above_0_1]
     = true.
Proof. repeat split; vm_compute; reflexivity. Qed.

(** |x| and |-x| are the same value. *)
Lemma fabs_fopp (x : float) : fabs (fopp x) = fabs x.
Proof. destruct x; reflexivity. Qed.

End Comparisons.

(** ** Rounding to nearest, ties to even *)

Section Rounding.

Local Open Scope Z_scope.

(** The number of binary digits of a mantissa. *)
Lemma digits2_pos_size (m : positive) : digits2_pos m = Pos.size m.
Proof. induction m; simpl; congruence. Qed.

Lemma digits2_pos_log2 (m : positive) :
  Z.pos (digits2_pos m) = Z.log2 (Z.pos m) + 1.
Proof.
  rewrite digits2_pos_size. destruct m; simpl; try reflexivity; lia.
Qed.

(** A mantissa in [2^(d-1), 2^d) has [d] digits. *)
Lemma digits2_pos_bounds (m : positive) (d : Z) :
  2 ^ (d - 1) <= Z.pos m < 2 ^ d -> Z.pos (digits2_pos m) = d.
Proof.
  intros H. rewrite digits2_pos_log2.
  assert (0 <= d - 1).
  { destruct (Z.le_gt_cases 0 (d - 1)) as [|Hn]; [assumption|].
    assert (d <= 0) by lia.
    assert (2 ^ d <= 2 ^ 0).
    { destruct (Z.eq_dec d 0); [subst; lia |].
      rewrite Z.pow_neg_r by lia. simpl; lia. }
    simpl in *. lia. }
  rewrite (Z.log2_unique (Z.pos m) (d - 1)); [lia | lia |].
  replace (Z.succ (d - 1)) with d by lia. exact H.
Qed.

(** Appending [d] zero bits multiplies by 2^d. *)
Lemma iter_xO (m : positive) (d : positive) :
  Z.pos (Pos.iter xO m d) = Z.pos m * 2 ^ Z.pos d.
Proof.
  rewrite Pos2Nat.inj_iter.
  replace (Z.pos d) with (Z.of_nat (Pos.to_nat d)) by apply positive_nat_Z.
  induction (Pos.to_nat d) as [| n IH].
  - simpl. lia.
  - rewrite Nat2Z.inj_succ, Z.pow_succ_r by lia.
    cbn [nat_rect].
    rewrite (Pos2Z.inj_xO (nat_rect _ m _ n)), IH. lia.
Qed.

(** Aligning to a smaller exponent scales the mantissa by a power of two;
    aligning to a larger one leaves the number as it is. *)
Lemma shl_align_le (m : positive) (e e' : Z) :
  e' <= e ->
  shl_align m e e' = (Z.to_pos (Z.pos m * 2 ^ (e - e')), e').
Proof.
  intros H. unfold shl_align.
  destruct (e' - e) as [| p | p] eqn:E; try lia.
  - assert (e = e') by lia. subst. rewrite Z.sub_diag. simpl.
    rewrite Pos.mul_1_r. reflexivity.
  - f_equal. replace (e - e') with (Z.pos p) by lia.
    rewrite <- iter_xO. reflexivity.
Qed.

Lemma shl_align_ge (m : positive) (e e' : Z) :
  e <= e' -> shl_align m e e' = (m, e).
Proof.
  intros H. unfold shl_align. destruct (e' - e) eqn:E; try reflexivity; lia.
Qed.

(** [iter_pos] iterates as many times as its argument says. *)
Lemma iter_pos_nat {A} (f : A -> A) (p : positive) (x : A) :
  SpecFloat.iter_pos f p x = Nat.iter (Pos.to_nat p) f x.
Proof.
  revert x. induction p as [p IH | p IH |]; intros x; simpl SpecFloat.iter_pos.
  - rewrite !IH, Pos2Nat.inj_xI, <- Nat.iter_succ_r, <- Nat.iter_add.
    f_equal. lia.
  - rewrite !IH, Pos2Nat.inj_xO, <- Nat.iter_add. f_equal. lia.
  - reflexivity.
Qed.

(** One step to the right: the quotient by two, the bit that fell off, and
    whether anything fell off before. *)
Lemma shr_1_nonneg (m : Z) (r s : bool) :
  0 <= m ->
  shr_1 (Build_shr_record m r s) = Build_shr_record (m / 2) (Z.odd m) (r || s).
Proof.
  intros H. rewrite <- Z.div2_div.
  destruct m as [| [p | p |] | p]; try reflexivity; lia.
Qed.

Lemma iter_shr_1 (m : Z) (n : nat) :
  0 <= m ->
  Nat.iter (S n) shr_1 (Build_shr_record m false false)
  = Build_shr_record (m / 2 ^ Z.of_nat (S n)) (Z.odd (m / 2 ^ Z.of_nat n))
      (negb (m mod 2 ^ Z.of_nat n =? 0)).
Proof.
  intros Hm. induction n as [| n IH].
  - unfold Nat.iter; cbn [nat_rect]. rewrite shr_1_nonneg by exact Hm.
    change (2 ^ Z.of_nat 1) with 2. change (2 ^ Z.of_nat 0) with 1.
    rewrite Z.div_1_r, Z.mod_1_r. reflexivity.
  - rewrite Nat.iter_succ, IH.
    assert (Hp : 0 < 2 ^ Z.of_nat n) by (apply Z.pow_pos_nonneg; lia).
    rewrite shr_1_nonneg
      by (apply Z.div_pos; [exact Hm | apply Z.pow_pos_nonneg; lia]).
    f_equal.
    + rewrite Z.div_div by (try apply Z.pow_pos_nonneg; lia).
      rewrite (Nat2Z.inj_succ (S n)), (Z.pow_succ_r _ (Z.of_nat (S n))) by lia.
      f_equal. lia.
    + rewrite (Nat2Z.inj_succ n), Z.pow_succ_r by lia.
      rewrite (Z.mul_comm 2), Z.rem_mul_r by lia.
      rewrite <- Z.bit0_mod, Z.bit0_odd.
      destruct (Z.odd (m / 2 ^ Z.of_nat n)); simpl.
      * pose proof (Z.mod_pos_bound m (2 ^ Z.of_nat n) Hp).
        symmetry. apply negb_true_iff, Z.eqb_neq. lia.
      * rewrite Z.mul_0_r, Z.add_0_r. reflexivity.
Qed.

(** Shifting a non-negative integer right by [k >= 1] binary places. *)
Lemma shr_nonneg (m e k : Z) :
  0 <= m -> 1 <= k ->
  shr (Build_shr_record m false false) e k
  = (Build_shr_record (m / 2 ^ k) (Z.odd (m / 2 ^ (k - 1)))
       (negb (m mod 2 ^ (k - 1) =? 0)), e + k).
Proof.
  intros Hm Hk. unfold shr. destruct k as [| p | p]; try lia.
  rewrite iter_pos_nat.
  destruct (Pos.to_nat p) as [| n] eqn:E; [lia |].
  rewrite iter_shr_1 by exact Hm.
  replace (Z.of_nat (S n)) with (Z.pos p) by lia.
  replace (Z.of_nat n) with (Z.pos p - 1) by lia. reflexivity.
Qed.

(** What [round_nearest_even] makes of the shifted mantissa, its round bit
    and its sticky bit. *)
Lemma round_shifted (m k : Z) :
  0 <= m -> 1 <= k ->
  rounds_to m k
    (round_nearest_even (m / 2 ^ k)
       (loc_of_shr_record
          (Build_shr_record (m / 2 ^ k) (Z.odd (m / 2 ^ (k - 1)))
             (negb (m mod 2 ^ (k - 1) =? 0))))).
Proof.
  intros Hm Hk. unfold rounds_to. cbv zeta.
  assert (HH : 0 < 2 ^ (k - 1)) by (apply Z.pow_pos_nonneg; lia).
  assert (E2 : 2 ^ k = 2 ^ (k - 1) * 2).
  { replace k with (Z.succ (k - 1)) at 1 by lia.
    rewrite Z.pow_succ_r by lia. lia. }
  assert (Er : m mod 2 ^ k
               = m mod 2 ^ (k - 1) + 2 ^ (k - 1) * Z.b2z (Z.odd (m / 2 ^ (k - 1)))).
  { rewrite E2, Z.rem_mul_r by lia. rewrite <- Z.bit0_mod, Z.bit0_odd. reflexivity. }
  pose proof (Z.mod_pos_bound m (2 ^ (k - 1)) HH) as Ha.
  rewrite Er, E2.
  destruct (Z.odd (m / 2 ^ (k - 1))); simpl Z.b2z;
    destruct (Z.eqb_spec (m mod 2 ^ (k - 1)) 0) as [E0 | E0];
    simpl negb; unfold loc_of_shr_record, round_nearest_even.
  - rewrite E0. destruct (Z.even (m / (2 ^ (k - 1) * 2))) eqn:Ev.
    + left. split; [reflexivity | split; [lia | intros _; reflexivity]].
    + right. split; [reflexivity | split; [lia | intros _; reflexivity]].
  - right. split; [reflexivity | split; [lia | intros; lia]].
  - left. split; [reflexivity | split; [lia | intros; lia]].
  - left. split; [reflexivity | split; [lia | intros; lia]].
Qed.

(** The exponent of a number in the normal range. *)
Lemma fexp_normal (x : Z) : -1021 <= x -> fexp prec emax x = x - 53.
Proof. intros H. unfold fexp, SpecFloat.emin, prec, emax. lia. Qed.

(** Rounding a mantissa of 53 + k digits in the normal range: the nearest
    53-digit mantissa at exponent [e + k], or 2^52 one exponent higher when
    rounding carries into a 54th digit. *)
Lemma binary_round_aux_normal (m : positive) (e k : Z) :
  1 <= k -> 2 ^ (52 + k) <= Z.pos m < 2 ^ (53 + k) ->
  -1074 <= e + k -> e + k < 971 ->
  exists q',
    rounds_to (Z.pos m) k q'
    /\ binary_round_aux prec emax false (Z.pos m) e loc_Exact
       = if q' <? 2 ^ 53 then S754_finite false (Z.to_pos q') (e + k)
         else S754_finite false 4503599627370496 (e + k + 1).
Proof.
  intros Hk Hm He1 He2.
  assert (Hq : 2 ^ 52 <= Z.pos m / 2 ^ k < 2 ^ 53).
  { assert (0 < 2 ^ k) by (apply Z.pow_pos_nonneg; lia).
    rewrite !Z.pow_add_r in Hm by lia. split.
    - apply Z.div_le_lower_bound; lia.
    - apply Z.div_lt_upper_bound; lia. }
  unfold binary_round_aux, shr_fexp.
  cbn [Zdigits2 shr_record_of_loc].
  rewrite (digits2_pos_bounds m (53 + k))
    by (replace (53 + k - 1) with (52 + k) by lia; exact Hm).
  rewrite fexp_normal by lia.
  replace (53 + k + e - 53 - e) with k by lia.
  rewrite shr_nonneg by lia.
  cbn [shr_m].
  pose proof (round_shifted (Z.pos m) k ltac:(lia) Hk) as Hr.
  set (q' := round_nearest_even _ _) in *.
  exists q'. split; [exact Hr |].
  assert (Hq' : 2 ^ 52 <= q' <= 2 ^ 53).
  { unfold rounds_to in Hr. cbv zeta in Hr. lia. }
  change (2 ^ 52) with 4503599627370496 in *.
  change (2 ^ 53) with 9007199254740992 in *.
  destruct (Z.ltb_spec q' 9007199254740992) as [Hlt | Hge].
  - destruct q' as [| p | p] eqn:Eq'; try lia.
    cbn [Zdigits2].
    rewrite (digits2_pos_bounds p 53)
      by (change (2 ^ (53 - 1)) with 4503599627370496;
          change (2 ^ 53) with 9007199254740992; lia).
    rewrite fexp_normal by lia.
    replace (53 + (e + k) - 53 - (e + k)) with 0 by lia.
    cbn [shr shr_m]. unfold prec, emax.
    destruct (Z.leb_spec (e + k) (1024 - 53)); [reflexivity | lia].
  - assert (Eq' : q' = 9007199254740992) by lia. rewrite Eq'.
    cbn [Zdigits2].
    rewrite (digits2_pos_bounds _ 54)
      by (split; [apply Z.leb_le | apply Z.ltb_lt]; reflexivity).
    rewrite fexp_normal by lia.
    replace (54 + (e + k) - 53 - (e + k)) with 1 by lia.
    rewrite shr_nonneg by lia.
    cbn [shr_m]. change (9007199254740992 / 2 ^ 1) with 4503599627370496.
    cbv iota beta. unfold prec, emax.
    destruct (Z.leb_spec (e + k + 1) (1024 - 53)); [reflexivity | lia].
Qed.

Lemma digits2_pos_upper (m : positive) :
  Z.pos m < 2 ^ Z.pos (digits2_pos m).
Proof.
  rewrite digits2_pos_log2.
  pose proof (Z.log2_spec (Z.pos m) ltac:(lia)) as H.
  replace (Z.log2 (Z.pos m) + 1) with (Z.succ (Z.log2 (Z.pos m))) by lia.
  apply H.
Qed.

Lemma digits2_pos_lower (m : positive) :
  2 ^ (Z.pos (digits2_pos m) - 1) <= Z.pos m.
Proof.
  rewrite digits2_pos_log2.
  pose proof (Z.log2_spec (Z.pos m) ltac:(lia)) as H.
  replace (Z.log2 (Z.pos m) + 1 - 1) with (Z.log2 (Z.pos m)) by lia.
  apply H.
Qed.

(** A canonical mantissa is left as it is. *)
Lemma binary_round_aux_canonical (s : bool) (m : positive) (e : Z) :
  canonical_mantissa prec emax m e = true -> e <= 971 ->
  binary_round_aux prec emax s (Z.pos m) e loc_Exact = S754_finite s m e.
Proof.
  unfold canonical_mantissa. intros Hc He. apply Z.eqb_eq in Hc.
  unfold binary_round_aux, shr_fexp. cbn [Zdigits2 shr_record_of_loc].
  rewrite Hc, Z.sub_diag. cbn [shr shr_m loc_of_shr_record round_nearest_even Zdigits2 shr_record_of_loc].
  rewrite Hc, Z.sub_diag. cbn [shr shr_m]. unfold prec, emax.
  destruct (Z.leb_spec e (1024 - 53)); [reflexivity | lia].
Qed.

Lemma binary_round_normal (m : positive) (e k : Z) :
  1 <= k -> 2 ^ (52 + k) <= Z.pos m < 2 ^ (53 + k) ->
  -1074 <= e + k -> e + k < 971 ->
  exists q',
    rounds_to (Z.pos m) k q'
    /\ binary_round prec emax false m e
       = if q' <? 2 ^ 53 then S754_finite false (Z.to_pos q') (e + k)
         else S754_finite false 4503599627370496 (e + k + 1).
Proof.
  intros Hk Hm He1 He2. unfold binary_round.
  rewrite (digits2_pos_bounds m (53 + k))
    by (replace (53 + k - 1) with (52 + k) by lia; exact Hm).
  rewrite fexp_normal by lia.
  rewrite shl_align_ge by lia.
  apply binary_round_aux_normal; assumption.
Qed.

Lemma pow2_split (k : Z) : 0 <= k ->
  2 ^ (52 + k) = 4503599627370496 * 2 ^ k
  /\ 2 ^ (53 + k) = 9007199254740992 * 2 ^ k
  /\ 2 ^ (k + 1) = 2 * 2 ^ k.
Proof.
  intros H. rewrite !Z.pow_add_r by lia.
  change (2 ^ 52) with 4503599627370496.
  change (2 ^ 53) with 9007199254740992.
  change (2 ^ 1) with 2. lia.
Qed.

(** 1 - p for 0 < p < 1/2: the mantissa 2^53 * 2^k - mx at exponent [ex],
    rounded by [k = -53 - ex] places; the result is in [1/2, 1]. *)
Lemma fsub_one_small (mx : positive) (ex : Z) :
  Z.pos mx < 2 ^ 53 -> -1074 <= ex <= -54 ->
  exists q',
    rounds_to (9007199254740992 * 2 ^ (-53 - ex) - Z.pos mx) (-53 - ex) q'
    /\ fsub one (S754_finite false mx ex)
       = if q' <? 2 ^ 53 then S754_finite false (Z.to_pos q') (-53)
         else one.
Proof.
  intros Hm He. change (2 ^ 53) with 9007199254740992 in Hm.
  set (k := -53 - ex).
  assert (Hk : 1 <= k) by (unfold k; lia).
  assert (HK : 2 <= 2 ^ k).
  { change 2 with (2 ^ 1) at 1. apply Z.pow_le_mono_r; lia. }
  destruct (pow2_split k ltac:(lia)) as (E52 & E53 & E1).
  unfold fsub, SFsub, one. cbv zeta.
  rewrite Z.min_r by lia.
  rewrite (shl_align_le _ (-52) ex) by lia.
  rewrite (shl_align_ge mx ex ex) by lia.
  cbn [fst cond_Zopp].
  replace (-52 - ex) with (k + 1) by (unfold k; lia).
  rewrite E1.
  rewrite Z2Pos.id by lia.
  replace (4503599627370496 * (2 * 2 ^ k)) with (9007199254740992 * 2 ^ k) by lia.
  destruct (9007199254740992 * 2 ^ k - Z.pos mx) as [| n | n] eqn:En; try lia.
  cbn [binary_normalize].
  assert (Hn : 2 ^ (52 + k) <= Z.pos n < 2 ^ (53 + k))
    by (rewrite E52, E53; lia).
  destruct (binary_round_normal n ex k Hk Hn) as (q' & Hr & Hb);
    [unfold k; lia | unfold k; lia |].
  exists q'. split; [exact Hr |].
  rewrite Hb. replace (ex + k) with (-53) by (unfold k; lia).
  reflexivity.
Qed.

(** [rounds_to] read on a given quotient and remainder. *)
Lemma rounds_to_inv (m k q' q r : Z) :
  0 < 2 ^ k -> 0 <= r < 2 ^ k -> m = 2 ^ k * q + r ->
  rounds_to m k q' ->
  (q' = q /\ 2 * r <= 2 ^ k /\ (2 * r = 2 ^ k -> Z.even q = true))
  \/ (q' = q + 1 /\ 2 ^ k <= 2 * r /\ (2 * r = 2 ^ k -> Z.even q = false)).
Proof.
  intros HK Hr Hm H. unfold rounds_to in H. cbv zeta in H.
  rewrite <- (Z.div_unique_pos m (2 ^ k) q r Hr Hm) in H.
  rewrite <- (Z.mod_unique_pos m (2 ^ k) q r Hr Hm) in H.
  exact H.
Qed.

(** Adding p back to the rounded 1 - p, for 0 < p < 1/2: the exact sum is
    within half a unit in the last place of 1, on the even side when halfway,
    so it rounds to 1. *)
Lemma fadd_back_small (mx : positive) (ex q' : Z) :
  Z.pos mx < 2 ^ 53 -> -1074 <= ex <= -54 ->
  rounds_to (9007199254740992 * 2 ^ (-53 - ex) - Z.pos mx) (-53 - ex) q' ->
  fadd (S754_finite false mx ex)
    (if q' <? 2 ^ 53 then S754_finite false (Z.to_pos q') (-53) else one)
  = one.
Proof.
  intros Hm He Hr. change (2 ^ 53) with 9007199254740992 in *.
  set (k := -53 - ex) in *.
  assert (Hk : 1 <= k) by (unfold k; lia).
  assert (HK : 2 <= 2 ^ k).
  { change 2 with (2 ^ 1) at 1. apply Z.pow_le_mono_r; lia. }
  destruct (pow2_split k ltac:(lia)) as (E52 & E53 & E1).
  destruct (pow2_split (k + 1) ltac:(lia)) as (E52' & E53' & _).
  rewrite E1 in E52', E53'.
  set (n1 := 9007199254740992 * 2 ^ k - Z.pos mx) in *.
  pose proof (Z.div_mod n1 (2 ^ k) ltac:(lia)) as Hdm.
  pose proof (Z.mod_pos_bound n1 (2 ^ k) ltac:(lia)) as Hrb.
  assert (HK0 : 0 < 2 ^ k) by lia.
  assert (HK1 : 0 < 2 ^ (k + 1)) by lia.
  apply (rounds_to_inv _ _ _ _ _ HK0 Hrb Hdm) in Hr.
  set (q := n1 / 2 ^ k) in *. set (r := n1 mod 2 ^ k) in *.
  assert (Hq : 4503599627370496 <= q < 9007199254740992) by (unfold n1 in Hdm; nia).
  (* the sum of the aligned mantissas *)
  assert (Hsum :
    fadd (S754_finite false mx ex)
      (if q' <? 9007199254740992 then S754_finite false (Z.to_pos q') (-53)
       else one)
    = binary_round prec emax false (Z.to_pos (Z.pos mx + q' * 2 ^ k)) ex).
  { destruct (Z.ltb_spec q' 9007199254740992) as [Hlt | Hge].
    - unfold fadd, SFadd. cbv zeta.
      rewrite Z.min_l by lia.
      rewrite (shl_align_ge mx ex ex) by lia.
      rewrite (shl_align_le _ (-53) ex) by lia.
      cbn [fst cond_Zopp]. fold k.
      rewrite !Z2Pos.id by nia.
      destruct (Z.pos mx + q' * 2 ^ k) eqn:En; try nia. reflexivity.
    - assert (q' = 9007199254740992) by lia. subst q'.
      unfold fadd, SFadd, one. cbv zeta.
      rewrite Z.min_l by lia.
      rewrite (shl_align_ge mx ex ex) by lia.
      rewrite (shl_align_le _ (-52) ex) by lia.
      cbn [fst cond_Zopp].
      replace (-52 - ex) with (k + 1) by (unfold k; lia). rewrite E1.
      rewrite Z2Pos.id by lia.
      replace (4503599627370496 * (2 * 2 ^ k))
        with (9007199254740992 * 2 ^ k) by lia.
      destruct (Z.pos mx + 9007199254740992 * 2 ^ k) eqn:En; try lia.
      reflexivity. }
  rewrite Hsum. clear Hsum.
  assert (Hpos : 0 < Z.pos mx + q' * 2 ^ k) by nia.
  destruct (Z.pos mx + q' * 2 ^ k) as [| N | N] eqn:EN; try lia.
  cbn [Z.to_pos].
  destruct Hr as [(Hq' & Hr1 & Hr2) | (Hq' & Hr1 & Hr2)].
  - destruct (Z.eq_dec r 0) as [Hr0 | Hr0].
    + (* no rounding in the subtraction *)
      assert (EN' : Z.pos N = 2 ^ (k + 1) * 4503599627370496 + 0)
        by (unfold n1 in Hdm; rewrite E1; nia).
      destruct (binary_round_normal N ex (k + 1)) as (q2 & H2 & ->);
        [lia | rewrite E52', E53'; lia | unfold k; lia | unfold k; lia |].
      apply (rounds_to_inv _ _ _ 4503599627370496 0 HK1 ltac:(lia) EN') in H2.
      assert (q2 = 4503599627370496) by lia. subst q2.
      replace (ex + (k + 1)) with (-52) by (unfold k; lia). reflexivity.
    + (* the subtraction rounded down *)
      assert (EN' : Z.pos N = 2 ^ k * 9007199254740991 + (2 ^ k - r))
        by (unfold n1 in Hdm; nia).
      destruct (binary_round_normal N ex k) as (q2 & H2 & ->);
        [lia | rewrite E52, E53; lia | unfold k; lia | unfold k; lia |].
      apply (rounds_to_inv _ _ _ 9007199254740991 (2 ^ k - r) HK0
               ltac:(lia) EN') in H2.
      assert (q2 = 9007199254740992).
      { destruct H2 as [(_ & H2a & H2b) | (H2a & _)]; [| lia].
        assert (E : 2 * (2 ^ k - r) = 2 ^ k) by lia.
        apply H2b in E. discriminate E. }
      subst q2. replace (ex + k + 1) with (-52) by (unfold k; lia).
      reflexivity.
  - (* the subtraction rounded up *)
    assert (EN' : Z.pos N = 2 ^ (k + 1) * 4503599627370496 + (2 ^ k - r))
      by (unfold n1 in Hdm; rewrite E1; nia).
    destruct (binary_round_normal N ex (k + 1)) as (q2 & H2 & ->);
      [lia | rewrite E52', E53'; lia | unfold k; lia | unfold k; lia |].
    apply (rounds_to_inv _ _ _ 4503599627370496 (2 ^ k - r) HK1
             ltac:(lia) EN') in H2.
    assert (q2 = 4503599627370496) by lia. subst q2.
    replace (ex + (k + 1)) with (-52) by (unfold k; lia). reflexivity.
Qed.

(** For 1/2 <= p < 1 the difference 1 - p is computed exactly, and p plus
    it is 2^53 at the exponent of p. *)
Lemma fadd_fsub_one_half (mx : positive) :
  2 ^ 52 <= Z.pos mx < 2 ^ 53 ->
  fadd (S754_finite false mx (-53)) (fsub one (S754_finite false mx (-53)))
  = one.
Proof.
  intros Hm.
  change (2 ^ 52) with 4503599627370496 in Hm.
  change (2 ^ 53) with 9007199254740992 in Hm.
  (* the subtraction is exact *)
  unfold fsub, SFsub, one. cbv zeta.
  change (Z.min (-52) (-53)) with (-53).
  change (fst (shl_align 4503599627370496 (-52) (-53)))
    with 9007199254740992%positive.
  rewrite (shl_align_ge mx (-53) (-53)) by lia.
  cbn [fst cond_Zopp].
  destruct (9007199254740992 - Z.pos mx) as [| n | n] eqn:En; try lia.
  cbn [binary_normalize]. unfold binary_round.
  pose proof (digits2_pos_lower n) as Hlo.
  pose proof (digits2_pos_upper n) as Hup.
  set (d := Z.pos (digits2_pos n)) in *.
  assert (Hd : 1 <= d <= 53).
  { split; [unfold d; lia |].
    destruct (Z.le_gt_cases d 53) as [| Hgt]; [assumption |].
    assert (2 ^ 53 <= 2 ^ (d - 1)) by (apply Z.pow_le_mono_r; lia).
    change (2 ^ 53) with 9007199254740992 in *. lia. }
  set (S := 2 ^ (53 - d)).
  assert (HS : 1 <= S).
  { change 1 with (2 ^ 0). apply Z.pow_le_mono_r; lia. }
  assert (ES1 : 2 ^ (d - 1) * S = 4503599627370496).
  { unfold S. rewrite <- Z.pow_add_r by lia.
    replace (d - 1 + (53 - d)) with 52 by lia. reflexivity. }
  assert (ES2 : 2 ^ d * S = 9007199254740992).
  { unfold S. rewrite <- Z.pow_add_r by lia.
    replace (d + (53 - d)) with 53 by lia. reflexivity. }
  assert (Ef : fexp prec emax (d + -53) = d - 106)
    by (unfold fexp, SpecFloat.emin, prec, emax; lia).
  rewrite Ef.
  rewrite (shl_align_le n (-53) (d - 106)) by lia.
  replace (-53 - (d - 106)) with (53 - d) by lia. fold S.
  assert (Hm2 : 4503599627370496 <= Z.pos n * S < 9007199254740992) by nia.
  destruct (Z.pos n * S) as [| m2 | m2] eqn:Em2; try lia.
  cbn [Z.to_pos].
  assert (Hdig : Z.pos (digits2_pos m2) = 53).
  { apply digits2_pos_bounds.
    change (2 ^ (53 - 1)) with 4503599627370496.
    change (2 ^ 53) with 9007199254740992. lia. }
  rewrite binary_round_aux_canonical; [| | lia].
  2:{ unfold canonical_mantissa. rewrite Hdig. apply Z.eqb_eq.
      unfold fexp, SpecFloat.emin, prec, emax. lia. }
  (* adding it back gives a power of two *)
  unfold fadd, SFadd. cbv zeta.
  rewrite Z.min_r by lia.
  rewrite (shl_align_le mx (-53) (d - 106)) by lia.
  rewrite (shl_align_ge m2 (d - 106) (d - 106)) by lia.
  cbn [fst cond_Zopp].
  replace (-53 - (d - 106)) with (53 - d) by lia. fold S.
  rewrite Z2Pos.id by nia.
  assert (EN : Z.pos mx * S + Z.pos m2 = 9007199254740992 * S) by nia.
  rewrite EN.
  destruct (9007199254740992 * S) as [| N | N] eqn:EN'; try lia.
  cbn [binary_normalize].
  assert (E2S : 2 ^ (54 - d) = 2 * S).
  { unfold S. replace (54 - d) with (Z.succ (53 - d)) by lia.
    rewrite Z.pow_succ_r by lia. reflexivity. }
  destruct (pow2_split (54 - d) ltac:(lia)) as (E52 & E53 & _).
  rewrite E2S in E52, E53.
  destruct (binary_round_normal N (d - 106) (54 - d)) as (q2 & H2 & ->);
    [lia | rewrite E52, E53; lia | lia | lia |].
  assert (HK : 0 < 2 ^ (54 - d)) by lia.
  assert (EN2 : Z.pos N = 2 ^ (54 - d) * 4503599627370496 + 0) by lia.
  apply (rounds_to_inv _ _ _ 4503599627370496 0 HK ltac:(lia) EN2) in H2.
  assert (q2 = 4503599627370496) by lia. subst q2.
  replace (d - 106 + (54 - d)) with (-52) by lia. reflexivity.
Qed.

(** Addition does not depend on the order of its operands. *)
Lemma fadd_comm (x y : float) : fadd x y = fadd y x.
Proof.
  unfold fadd, SFadd.
  destruct x as [[] | [] | | sx mx ex], y as [[] | [] | | sy my ey];
    try reflexivity.
  cbv zeta. rewrite (Z.min_comm ey ex), Z.add_comm. reflexivity.
Qed.

End Rounding.

(** ** Splitting and stripping *)

Section Splitting.

Lemma existsb_rev {A} (f : A -> bool) (l : list A) :
  existsb f (rev l) = existsb f l.
Proof.
  induction l as [| a l IH]; simpl; [reflexivity |].
  rewrite existsb_app, IH. simpl. destruct (f a), (existsb f l); reflexivity.
Qed.

Lemma forallb_rev {A} (f : A -> bool) (l : list A) :
  forallb f (rev l) = forallb f l.
Proof.
  induction l as [| a l IH]; simpl; [reflexivity |].
  rewrite forallb_app, IH. simpl. destruct (f a), (forallb f l); reflexivity.
Qed.

Lemma split_ws_length (s tok : str) :
  length (split_ws s tok)
  = ((if truthy tok then 1 else 0) + count_runs (truthy tok) s)%nat.
Proof.
  revert tok. induction s as [| c s IH]; intros tok; simpl.
  - destruct tok; reflexivity.
  - destruct (isspace c).
    + destruct tok; simpl; rewrite IH; reflexivity.
    + rewrite IH. simpl. destruct tok; simpl; lia.
Qed.

Lemma word_count_tokens (s : str) : length (split s) = count_tokens s.
Proof. unfold split, count_tokens. rewrite split_ws_length. reflexivity. Qed.

(** The tokens are non-empty and hold no whitespace. *)
Lemma split_ws_tokens (s tok : str) :
  forallb isspace tok = false \/ tok = [] ->
  existsb isspace tok = false ->
  Forall (fun w => w <> [] /\ existsb isspace w = false) (split_ws s tok).
Proof.
  revert tok. induction s as [| c s IH]; intros tok Hne Hns; simpl.
  - destruct tok as [| a tok]; constructor; [| constructor].
    split.
    + intros E. apply (f_equal (@length _)) in E.
      rewrite length_rev in E. discriminate.
    + rewrite existsb_rev. exact Hns.
  - destruct (isspace c) eqn:Hc.
    + destruct tok as [| a tok].
      * apply IH; [right; reflexivity | reflexivity].
      * constructor; [| apply IH; [right; reflexivity | reflexivity]].
        split.
        -- intros E. apply (f_equal (@length _)) in E.
           rewrite length_rev in E. discriminate.
        -- rewrite existsb_rev. exact Hns.
    + apply IH.
      * left. simpl. rewrite Hc. reflexivity.
      * simpl. rewrite Hc. exact Hns.
Qed.

Lemma split_tokens (s : str) :
  Forall (fun w => w <> [] /\ existsb isspace w = false) (split s).
Proof. apply split_ws_tokens; [right |]; reflexivity. Qed.

(** Joined, the tokens are the text without its whitespace. *)
Lemma split_ws_concat (s tok : str) :
  concat (split_ws s tok)
  = (rev tok ++ List.filter (fun c => negb (isspace c)) s)%list.
Proof.
  revert tok. induction s as [| c s IH]; intros tok; simpl.
  - destruct tok; simpl; rewrite ?app_nil_r; reflexivity.
  - destruct (isspace c) eqn:Hc; simpl.
    + destruct tok; simpl; rewrite IH; reflexivity.
    + rewrite IH. simpl. rewrite <- app_assoc. reflexivity.
Qed.

Lemma blank_split (s : str) : blank s = true -> split s = [].
Proof.
  unfold split, blank. induction s as [| c s IH]; simpl; [reflexivity |].
  destruct (isspace c); [exact IH | discriminate].
Qed.

Lemma blank_lstrip (s : str) : blank s = true <-> lstrip s = [].
Proof.
  unfold blank. induction s as [| c s IH]; simpl; [tauto |].
  destruct (isspace c); [exact IH | split; discriminate].
Qed.

Lemma blank_strip (s : str) : blank s = true <-> strip s = [].
Proof.
  unfold strip, rstrip. split.
  - intros H. apply blank_lstrip in H. rewrite H. reflexivity.
  - intros H. apply (f_equal (@rev _)) in H. rewrite rev_involutive in H.
    simpl in H. apply blank_lstrip in H.
    unfold blank in H. rewrite forallb_rev in H.
    (* the text is whitespace up to a suffix that is whitespace too *)
    revert H. induction s as [| c s IH]; simpl; [reflexivity |].
    destruct (isspace c) eqn:Hc; [exact IH |].
    simpl. rewrite Hc. discriminate.
Qed.

End Splitting.

(** ** The confidence tier *)

Section Tier.

Lemma labels_distinct :
  Low_Confidence <> Medium_Confidence
  /\ Medium_Confidence <> High_Confidence
  /\ Low_Confidence <> High_Confidence.
Proof. repeat split; discriminate. Qed.

(** The tier, by cases on the four tests of the function. *)
Lemma est_confidence_cases (text : str) (ai_prob : float) :
  let wc := length (split text) in
  let m := fabs (fsub ai_prob f0_5) in
  est_confidence (estimate_confidence text ai_prob)
  = if (wc <? 100)%nat || fltb m f0_1 then Low_Confidence
    else if (wc <? 200)%nat || fltb m f0_2 then Medium_Confidence
    else High_Confidence.
Proof. reflexivity. Qed.

Lemma est_high_inv (text : str) (ai_prob : float) :
  est_confidence (estimate_confidence text ai_prob) = High_Confidence ->
  (length (split text) <? 100)%nat = false
  /\ (length (split text) <? 200)%nat = false
  /\ fltb (fabs (fsub ai_prob f0_5)) f0_1 = false
  /\ fltb (fabs (fsub ai_prob f0_5)) f0_2 = false.
Proof.
  rewrite est_confidence_cases.
  destruct (length (split text) <? 100)%nat,
    (fltb (fabs (fsub ai_prob f0_5)) f0_1),
    (length (split text) <? 200)%nat,
    (fltb (fabs (fsub ai_prob f0_5)) f0_2); simpl;
    intros H; try discriminate H; repeat split; reflexivity.
Qed.

End Tier.

(** C1. For every text and every AI probability, [estimate_confidence]
    returns the tier chosen by the ordered rules, first match winning:
    Low if word_count < 100 or margin < 0.1; otherwise Medium if
    word_count < 200 or margin < 0.2; otherwise High; here word_count is the
    number of whitespace-delimited tokens of the text and margin is
    abs(ai_probability - 0.5), and both are returned as such. *)
Theorem tier_by_ordered_rules (text : str) (ai_prob : float) :
  let r := estimate_confidence text ai_prob in
  est_word_count r = count_tokens text
  /\ est_margin r = fabs (fsub ai_prob f0_5)
  /\ est_confidence r = tier_rules (est_word_count r) (est_margin r)
  /\ est_confidence r
     = tier_rules (count_tokens text) (fabs (fsub ai_prob f0_5)).
Proof.
  cbv zeta. rewrite <- word_count_tokens. repeat split; reflexivity.
Qed.

(** A probability the interpreter can hold: zero, or a positive
    canonical mantissa below 2^53 with an exponent that puts it at most
    at 1. *)
Lemma probability_cases (p : float) :
  valid p = true -> fleb zero p = true -> fleb p one = true ->
  (exists s, p = S754_zero s)
  \/ p = one
  \/ (exists mx, p = S754_finite false mx (-53)
                 /\ (2 ^ 52 <= Z.pos mx < 2 ^ 53)%Z)
  \/ (exists mx ex, p = S754_finite false mx ex
                    /\ (Z.pos mx < 2 ^ 53)%Z /\ (-1074 <= ex <= -54)%Z).
Proof.
  destruct p as [s | [] | | [] mx ex]; try discriminate.
  - intros _ _ _. left. exists s. reflexivity.
  - intros Hv _ Hle. right.
    unfold one in Hle |- *. apply fleb_pos_finite in Hle.
    unfold valid, valid_binary, bounded, canonical_mantissa in Hv.
    apply andb_true_iff in Hv. destruct Hv as [Hc _].
    apply Z.eqb_eq in Hc.
    unfold fexp, SpecFloat.emin, prec, emax in Hc.
    pose proof (digits2_pos_lower mx) as Hlo.
    pose proof (digits2_pos_upper mx) as Hup.
    set (d := Z.pos (digits2_pos mx)) in *.
    assert (Hd : (1 <= d <= 53)%Z) by (unfold d; lia).
    assert (H53 : (Z.pos mx < 2 ^ 53)%Z).
    { eapply Z.lt_le_trans; [exact Hup |]. apply Z.pow_le_mono_r; lia. }
    assert (Hn : (-1074 < ex -> 2 ^ 52 <= Z.pos mx)%Z).
    { intros Hex. replace 52%Z with (d - 1)%Z by lia. exact Hlo. }
    change (2 ^ 52)%Z with 4503599627370496%Z in *.
    destruct (Z.eq_dec ex (-52)%Z) as [-> | Hne52].
    + left. f_equal. lia.
    + right. destruct (Z.eq_dec ex (-53)%Z) as [-> | Hne53].
      * left. exists mx. split; [reflexivity |].
        change (2 ^ 52)%Z with 4503599627370496%Z. lia.
      * right. exists mx, ex. split; [reflexivity |]. lia.
Qed.

(** C2. For every probability p in [0, 1] the human probability is 1 - p,
    and the two sum to exactly 1, in either order: the rounding of 1 - p
    never shows in the sum. *)
Theorem probabilities_sum_to_one (p : float) :
  valid p = true -> fleb zero p = true -> fleb p one = true ->
  human_prob p = fsub one p
  /\ fadd p (human_prob p) = one
  /\ fadd (human_prob p) p = one.
Proof.
  intros Hv H0 H1.
  assert (E : human_prob p = fsub one p) by reflexivity.
  split; [exact E |].
  rewrite (fadd_comm (human_prob p) p), E.
  cut (fadd p (fsub one p) = one); [intros ->; split; reflexivity |].
  destruct (probability_cases p Hv H0 H1)
    as [(s & ->) | [-> | [(mx & -> & Hm) | (mx & ex & -> & Hm & He)]]].
  - destruct s; reflexivity.
  - reflexivity.
  - apply fadd_fsub_one_half. exact Hm.
  - destruct (fsub_one_small mx ex Hm He) as (q' & Hr & ->).
    apply fadd_back_small; assumption.
Qed.

Lemma probabilities_sum_to_one_witness :
  valid f0_1 = true /\ fleb zero f0_1 = true /\ fleb f0_1 one = true
  /\ fadd f0_1 (human_prob f0_1) = one.
Proof.
  split; [reflexivity |]. split; [reflexivity |]. split; [reflexivity |].
  apply (probabilities_sum_to_one f0_1); reflexivity.
Defined.

(** C5. A text of fewer than 100 words gets the tier Low, whatever the
    probability and hence whatever the margin. *)
Theorem short_text_is_low (text : str) (ai_prob : float) :
  (length (split text) < 100)%nat ->
  est_confidence (estimate_confidence text ai_prob) = Low_Confidence.
Proof.
  intros H. rewrite est_confidence_cases. cbv zeta.
  apply Nat.ltb_lt in H. rewrite H. reflexivity.
Qed.

Lemma short_text_is_low_witness :
  (length (split (words 3)) < 100)%nat
  /\ est_confidence (estimate_confidence (words 3) one) = Low_Confidence.
Proof.
  split; [vm_compute; lia | apply (short_text_is_low (words 3) one)].
  vm_compute; lia.
Defined.

(** C6. A text of at least 200 words with a margin of at least 0.2 gets the
    tier High. *)
Theorem long_text_wide_margin_is_high (text : str) (ai_prob : float) :
  (200 <= length (split text))%nat ->
  fgeb (fabs (fsub ai_prob f0_5)) f0_2 = true ->
  est_confidence (estimate_confidence text ai_prob) = High_Confidence.
Proof.
  intros Hwc Hm. rewrite est_confidence_cases. cbv zeta.
  apply fgeb_not_fltb in Hm.
  assert (H1 : fltb (fabs (fsub ai_prob f0_5)) f0_1 = false).
  { destruct (fltb (fabs (fsub ai_prob f0_5)) f0_1) eqn:E; [| reflexivity].
    apply fltb_0_1_0_2 in E. congruence. }
  rewrite Hm, H1.
  assert (H100 : (length (split text) <? 100)%nat = false)
    by (apply Nat.ltb_ge; lia).
  assert (H200 : (length (split text) <? 200)%nat = false)
    by (apply Nat.ltb_ge; lia).
  rewrite H100, H200. reflexivity.
Qed.

Lemma long_text_wide_margin_is_high_witness :
  (200 <= length (split (words 200)))%nat
  /\ fgeb (fabs (fsub one f0_5)) f0_2 = true
  /\ est_confidence (estimate_confidence (words 200) one) = High_Confidence.
Proof.
  split; [vm_compute; lia |]. split; [reflexivity |].
  apply (long_text_wide_margin_is_high (words 200) one);
    [vm_compute; lia | reflexivity].
Defined.

(** C7 as stated fails: for d = 0.10000000000000002 and a text of 100
    words, 0.5 + d rounds to 0.6 and gives margin 0.09999999999999998 and
    tier Low, while 0.5 - d rounds to 0.39999999999999997 and gives margin
    0.10000000000000003 and tier Medium; the indicator "Prediction near
    50%" differs too. *)
Lemma margin_symmetry_counterexample :
  let up := estimate_confidence (words 100) (fadd f0_5 above_0_1) in
  let down := estimate_confidence (words 100) (fsub f0_5 above_0_1) in
  up = (Low_Confidence,
        [(short_text_key, false); (near_50_key, true); (low_margin_key, true)],
        100%nat, S754_finite false 7205759403792792 (-56))
  /\ down = (Medium_Confidence,
        [(short_text_key, false); (near_50_key, false); (low_margin_key, true)],
        100%nat, S754_finite false 7205759403792796 (-56))
  /\ est_margin up <> est_margin down
  /\ est_confidence up <> est_confidence down
  /\ est_indicators up <> est_indicators down.
Proof.
  vm_compute. repeat split; discriminate.
Qed.

(** C8. The threshold 0.15 of the indicator "Low prediction margin" has no
    part in the tier: two inputs with the same word count that agree on
    margin < 0.1 and on margin < 0.2 get the same tier, whether or not they
    agree on margin < 0.15. *)
Theorem tier_independent_of_0_15 (text1 text2 : str) (p1 p2 : float) :
  let r1 := estimate_confidence text1 p1 in
  let r2 := estimate_confidence text2 p2 in
  est_word_count r1 = est_word_count r2 ->
  fltb (est_margin r1) f0_1 = fltb (est_margin r2) f0_1 ->
  fltb (est_margin r1) f0_2 = fltb (est_margin r2) f0_2 ->
  est_confidence r1 = est_confidence r2.
Proof.
  cbv zeta. rewrite !est_confidence_cases. cbv zeta.
  unfold est_word_count, est_margin, estimate_confidence. simpl.
  intros -> -> ->. reflexivity.
Qed.

Lemma tier_independent_of_0_15_witness :
  let r1 := estimate_confidence (words 150) f0_62 in
  let r2 := estimate_confidence (words 150) f0_66 in
  est_word_count r1 = est_word_count r2
  /\ fltb (est_margin r1) f0_1 = fltb (est_margin r2) f0_1
  /\ fltb (est_margin r1) f0_2 = fltb (est_margin r2) f0_2
  /\ fltb (est_margin r1) f0_15 <> fltb (est_margin r2) f0_15
  /\ est_confidence r1 = est_confidence r2.
Proof.
  cbv zeta. split; [reflexivity |]. split; [reflexivity |].
  split; [reflexivity |]. split; [vm_compute; discriminate |].
  apply (tier_independent_of_0_15 (words 150) (words 150) f0_62 f0_66);
    reflexivity.
Defined.

(** C9. [estimate_confidence] is a total function of any string and any
    float; its tier is one of the three labels, which are pairwise distinct;
    and since [split] yields no empty token, an empty or whitespace-only text
    has word count 0 and tier Low. *)
Theorem estimate_confidence_total (text : str) (ai_prob : float) :
  let r := estimate_confidence text ai_prob in
  (est_confidence r = Low_Confidence
   \/ est_confidence r = Medium_Confidence
   \/ est_confidence r = High_Confidence)
  /\ NoDup [Low_Confidence; Medium_Confidence; High_Confidence]
  /\ (blank text = true ->
      split text = [] /\ est_word_count r = 0%nat
      /\ est_confidence r = Low_Confidence).
Proof.
  cbv zeta. split; [| split].
  - rewrite est_confidence_cases. cbv zeta.
    destruct (_ || _); [tauto |]. destruct (_ || _); tauto.
  - repeat constructor; rewrite ?list_elem_of_In; simpl;
      intros H; repeat destruct H as [H | H]; try discriminate H; exact H.
  - intros Hb. apply blank_split in Hb.
    split; [exact Hb |].
    unfold est_word_count, est_confidence, estimate_confidence. simpl.
    rewrite Hb. split; reflexivity.
Qed.

Lemma estimate_confidence_total_witness :
  blank (of_string "  ") = true
  /\ est_confidence (estimate_confidence (of_string "  ") f0_95)
     = Low_Confidence.
Proof.
  split; [reflexivity |].
  apply (estimate_confidence_total (of_string "  ") f0_95). reflexivity.
Defined.

(** C10. When the tier is High, the three indicators "Short text length
    (<100 words)", "Prediction near 50%" and "Low prediction margin" are all
    false; put the other way, as soon as one indicator is true the tier is
    Low or Medium. *)
Theorem high_has_no_indicator (text : str) (ai_prob : float) :
  let r := estimate_confidence text ai_prob in
  (est_confidence r = High_Confidence ->
   est_indicators r
   = [(short_text_key, false); (near_50_key, false); (low_margin_key, false)])
  /\ ((exists k, In (k, true) (est_indicators r)) ->
      est_confidence r = Low_Confidence
      \/ est_confidence r = Medium_Confidence).
Proof.
  cbv zeta.
  assert (Hhigh :
    est_confidence (estimate_confidence text ai_prob) = High_Confidence ->
    est_indicators (estimate_confidence text ai_prob)
    = [(short_text_key, false); (near_50_key, false);
       (low_margin_key, false)]).
  { intros H. apply est_high_inv in H.
    destruct H as (H100 & _ & H01 & H02).
    unfold est_indicators, estimate_confidence. simpl.
    rewrite H100, H01.
    destruct (fltb (fabs (fsub ai_prob f0_5)) f0_15) eqn:E; [| reflexivity].
    apply fltb_0_15_0_2 in E. congruence. }
  split; [exact Hhigh |].
  intros (k & Hk).
  rewrite est_confidence_cases in Hhigh |- *. cbv zeta in Hhigh |- *.
  destruct (_ || _); [left; reflexivity |].
  destruct (_ || _); [right; reflexivity |].
  rewrite (Hhigh eq_refl) in Hk. simpl in Hk.
  repeat destruct Hk as [Hk | Hk]; try discriminate Hk; contradiction.
Qed.

Lemma high_has_no_indicator_witness :
  est_confidence (estimate_confidence (words 250) f0_95) = High_Confidence
  /\ est_indicators (estimate_confidence (words 250) f0_95)
     = [(short_text_key, false); (near_50_key, false);
        (low_margin_key, false)].
Proof.
  split; [reflexivity |].
  destruct (high_has_no_indicator (words 250) f0_95) as [H _].
  apply H. reflexivity.
Defined.

(** ** The classifier adapter *)

Section Adapter.

(** A lookup in the dictionary of scores finds the score of the last item
    carrying that label. *)
Lemma foldl_scores_lookup (outputs : list item) (d : gmap string float)
  (l : string) :
  foldl (fun d it => <[label it := score it]> d) d outputs !! l
  = match last (filter (fun it => label it = l) outputs) with
    | Some it => Some (score it)
    | None => d !! l
    end.
Proof.
  induction outputs as [| it outputs IH] using rev_ind; [reflexivity |].
  rewrite foldl_snoc, filter_app, filter_cons, filter_nil.
  destruct (decide (label it = l)) as [E | E].
  - rewrite last_snoc, E. apply lookup_insert_eq.
  - rewrite app_nil_r, <- IH. apply lookup_insert_ne. exact E.
Qed.

Lemma scores_of_lookup (outputs : list item) (l : string) :
  scores_of outputs !! l
  = score <$> last (filter (fun it => label it = l) outputs).
Proof.
  unfold scores_of. rewrite foldl_scores_lookup.
  destruct (last _); [reflexivity | apply lookup_empty].
Qed.

Lemma predict_outcome (detector : str -> list (list item) + exn)
  (text : str) (outputs : list item) (rest : list (list item)) :
  detector text = inl (outputs :: rest) ->
  predict_ai_probability detector text
  = (inl (default f0_5 (scores_of outputs !! "AI")),
     [enter "predict_ai_probability"; inference text]).
Proof.
  intros H. unfold predict_ai_probability, call_detector.
  rewrite H. reflexivity.
Qed.

End Adapter.

(** C3. When the model's output has no score labelled "AI",
    [predict_ai_probability] returns 0.5 and raises nothing; when it has
    one, that score is returned (the last one, should the label occur more
    than once). *)
Theorem missing_label_defaults_to_half
  (detector : str -> list (list item) + exn) (text : str)
  (outputs : list item) (rest : list (list item)) :
  detector text = inl (outputs :: rest) ->
  (Forall (fun it => label it <> "AI") outputs ->
   outcome (predict_ai_probability detector text) = inl f0_5)
  /\ (forall it,
       last (filter (fun it => label it = "AI") outputs) = Some it ->
       outcome (predict_ai_probability detector text) = inl (score it)).
Proof.
  intros H. rewrite (predict_outcome _ _ _ _ H). unfold outcome. simpl.
  rewrite scores_of_lookup. split.
  - intros Hno.
    assert (E : filter (fun it => label it = "AI") outputs = []).
    { clear H. induction Hno as [| it l Hit _ IH]; [reflexivity |].
      rewrite filter_cons. destruct (decide _); [contradiction | exact IH]. }
    rewrite E. reflexivity.
  - intros it Hit. rewrite Hit. reflexivity.
Qed.

Lemma missing_label_defaults_to_half_witness :
  let without := fun _ : str =>
    inl [[ {| label := "Real"; score := f0_95 |};
           {| label := "Fake"; score := f0_25 |} ]] : list (list item) + exn in
  let with_ai := fun _ : str =>
    inl [[ {| label := "AI"; score := f0_62 |};
           {| label := "Human"; score := f0_25 |} ]] : list (list item) + exn in
  outcome (predict_ai_probability without (of_string "some text")) = inl f0_5
  /\ outcome (predict_ai_probability with_ai (of_string "some text"))
     = inl f0_62.
Proof.
  cbv zeta. split.
  - eapply (missing_label_defaults_to_half _ (of_string "some text"));
      [reflexivity |].
    repeat constructor; discriminate.
  - destruct (missing_label_defaults_to_half
                (fun _ : str =>
                   inl [[ {| label := "AI"; score := f0_62 |};
                          {| label := "Human"; score := f0_25 |} ]])
                (of_string "some text") _ _ eq_refl) as [_ H].
    apply (H {| label := "AI"; score := f0_62 |}). reflexivity.
Defined.

(** ** The page *)

(** C4. An analysis triggered on an empty or whitespace-only text shows the
    warning and runs no inference: the run ends normally, its trace is the
    top of the page followed by the warning, and it holds no entry into
    [predict_ai_probability] or [estimate_confidence], no call of the model
    and no display of a probability. *)
Theorem blank_input_warns_without_inference
  (detector : str -> list (list item) + exn) (user_text : str) :
  blank user_text = true ->
  let run := app detector user_text true in
  outcome run = inl tt
  /\ trace run
     = (page_top ++ [main (warning "Please enter some text before analysis.")])%list
  /\ existsb is_inference (trace run) = false
  /\ existsb shows_probability (trace run) = false.
Proof.
  intros Hb. apply blank_strip in Hb. cbv zeta.
  unfold app. rewrite Hb. repeat split; reflexivity.
Qed.

Lemma blank_input_warns_without_inference_witness :
  let detector := fun _ : str => inr InferenceError : list (list item) + exn in
  blank (of_string "   ") = true
  /\ trace (app detector (of_string "   ") true)
     = (page_top ++ [main (warning "Please enter some text before analysis.")])%list.
Proof.
  cbv zeta. split; [reflexivity |].
  apply (blank_input_warns_without_inference _ (of_string "   ")).
  reflexivity.
Defined.

(** * Further properties of the estimator *)

Section Estimator.

Lemma split_ws_nil (s tok : str) :
  split_ws s tok = [] -> tok = [] /\ blank s = true.
Proof.
  revert tok. induction s as [| c s IH]; intros tok; simpl.
  - destruct tok; [split; reflexivity | discriminate].
  - unfold blank in *. simpl. destruct (isspace c) eqn:Hc.
    + destruct tok; [| discriminate].
      intros H. apply IH in H. exact H.
    + intros H. apply IH in H. destruct H as [H _]. discriminate H.
Qed.

(** [a <= b] and [b < c] give [a < c], for a positive finite bound [c]. *)
Lemma fleb_fltb_trans (a b : float) (mc : positive) (ec : Z) :
  fleb a b = true ->
  fltb b (S754_finite false mc ec) = true ->
  fltb a (S754_finite false mc ec) = true.
Proof.
  destruct a as [[] | [] | | [] ma ea], b as [[] | [] | | [] mb eb];
    try easy.
  rewrite fleb_pos_finite, !fltb_pos_finite. lia.
Qed.

Lemma fltb_0_1_0_15 (x : float) :
  fltb x f0_1 = true -> fltb x f0_15 = true.
Proof.
  destruct x as [[] | [] | | [] m e]; try easy.
  unfold f0_1, f0_15. rewrite !fltb_pos_finite. lia.
Qed.

Lemma tier_rank_labels :
  tier_rank Low_Confidence = 0%nat
  /\ tier_rank Medium_Confidence = 1%nat
  /\ tier_rank High_Confidence = 2%nat.
Proof. repeat split; reflexivity. Qed.

End Estimator.

(** The test [user_text.strip()] of the page and the word count of the
    estimator agree: the stripped text is non-empty exactly when [split]
    finds at least one word. So an analysis that runs never reports zero
    words, and the word count is zero only for a blank text. *)
Theorem stripped_nonempty_iff_has_word (text : str) (ai_prob : float) :
  truthy (strip text) = true
  <-> (1 <= est_word_count (estimate_confidence text ai_prob))%nat.
Proof.
  unfold est_word_count, estimate_confidence. simpl.
  destruct (blank text) eqn:Hb.
  - pose proof Hb as Hs. apply blank_strip in Hs. apply blank_split in Hb.
    rewrite Hs, Hb. simpl. split; [discriminate | lia].
  - split.
    + intros _. destruct (split text) eqn:E; [| simpl; lia].
      apply split_ws_nil in E. destruct E as [_ E]. congruence.
    + intros _. destruct (strip text) eqn:E; [| reflexivity].
      apply blank_strip in E. congruence.
Qed.

(** More words and a wider margin never lower the tier: if one input has at
    most as many words as another and a margin that is at most the other's,
    its tier is at most the other's. *)
Theorem tier_monotone (text1 text2 : str) (p1 p2 : float) :
  let r1 := estimate_confidence text1 p1 in
  let r2 := estimate_confidence text2 p2 in
  (est_word_count r1 <= est_word_count r2)%nat ->
  fleb (est_margin r1) (est_margin r2) = true ->
  (tier_rank (est_confidence r1) <= tier_rank (est_confidence r2))%nat.
Proof.
  cbv zeta. rewrite !est_confidence_cases. cbv zeta.
  unfold est_word_count, est_margin, estimate_confidence. simpl.
  set (w1 := length (split text1)). set (w2 := length (split text2)).
  set (m1 := fabs (fsub p1 f0_5)). set (m2 := fabs (fsub p2 f0_5)).
  intros Hw Hm.
  assert (H1 : fltb m2 f0_1 = true -> fltb m1 f0_1 = true)
    by (apply fleb_fltb_trans; exact Hm).
  assert (H2 : fltb m2 f0_2 = true -> fltb m1 f0_2 = true)
    by (apply fleb_fltb_trans; exact Hm).
  destruct (Nat.ltb_spec w1 100), (Nat.ltb_spec w2 100),
    (Nat.ltb_spec w1 200), (Nat.ltb_spec w2 200); try lia;
    destruct (fltb m2 f0_1), (fltb m2 f0_2);
    try rewrite (H1 eq_refl); try rewrite (H2 eq_refl);
    destruct (fltb m1 f0_1), (fltb m1 f0_2); simpl;
    change (tier_rank Low_Confidence) with 0%nat;
    change (tier_rank Medium_Confidence) with 1%nat;
    change (tier_rank High_Confidence) with 2%nat; lia.
Qed.

Lemma tier_monotone_witness :
  let r1 := estimate_confidence (words 150) f0_62 in
  let r2 := estimate_confidence (words 250) f0_95 in
  (est_word_count r1 <= est_word_count r2)%nat
  /\ fleb (est_margin r1) (est_margin r2) = true
  /\ (tier_rank (est_confidence r1) <= tier_rank (est_confidence r2))%nat.
Proof.
  cbv zeta. split; [vm_compute; lia |]. split; [reflexivity |].
  apply (tier_monotone (words 150) (words 250) f0_62 f0_95);
    [vm_compute; lia | reflexivity].
Defined.

(** Among the indicators, "Prediction near 50%" implies "Low prediction
    margin": a margin below 0.1 is below 0.15. *)
Theorem near_50_implies_low_margin (text : str) (ai_prob : float) :
  let r := estimate_confidence text ai_prob in
  In (near_50_key, true) (est_indicators r) ->
  In (low_margin_key, true) (est_indicators r).
Proof.
  cbv zeta. unfold est_indicators, estimate_confidence. simpl.
  intros [H | [H | [H | []]]]; try discriminate H.
  injection H as H. apply fltb_0_1_0_15 in H. rewrite H. tauto.
Qed.

Lemma near_50_implies_low_margin_witness :
  In (near_50_key, true) (est_indicators (estimate_confidence (words 50) f0_5))
  /\ In (low_margin_key, true)
       (est_indicators (estimate_confidence (words 50) f0_5)).
Proof.
  split; [right; left; reflexivity |].
  apply (near_50_implies_low_margin (words 50) f0_5).
  right; left; reflexivity.
Defined.

(** The converse of "High means no indicator" fails by design of the
    thresholds: with at least 200 words and a margin of at least 0.15 but
    below 0.2, the tier is Medium although all three indicators are false. *)
Theorem medium_without_indicator (text : str) (ai_prob : float) :
  let r := estimate_confidence text ai_prob in
  (200 <= est_word_count r)%nat ->
  fgeb (est_margin r) f0_15 = true ->
  fltb (est_margin r) f0_2 = true ->
  est_confidence r = Medium_Confidence
  /\ est_indicators r
     = [(short_text_key, false); (near_50_key, false); (low_margin_key, false)].
Proof.
  cbv zeta. rewrite est_confidence_cases. cbv zeta.
  unfold est_word_count, est_margin, est_indicators, estimate_confidence.
  simpl. intros Hw H15 H2.
  apply fgeb_not_fltb in H15.
  assert (H1 : fltb (fabs (fsub ai_prob f0_5)) f0_1 = false).
  { destruct (fltb (fabs (fsub ai_prob f0_5)) f0_1) eqn:E; [| reflexivity].
    apply fltb_0_1_0_15 in E. congruence. }
  assert (H100 : (length (split text) <? 100)%nat = false)
    by (apply Nat.ltb_ge; lia).
  assert (H200 : (length (split text) <? 200)%nat = false)
    by (apply Nat.ltb_ge; lia).
  rewrite H100, H200, H1, H15, H2. split; reflexivity.
Qed.

Lemma medium_without_indicator_witness :
  let r := estimate_confidence (words 200) f0_66 in
  (200 <= est_word_count r)%nat
  /\ fgeb (est_margin r) f0_15 = true
  /\ fltb (est_margin r) f0_2 = true
  /\ est_confidence r = Medium_Confidence.
Proof.
  cbv zeta. split; [vm_compute; lia |].
  split; [reflexivity |]. split; [reflexivity |].
  apply (medium_without_indicator (words 200) f0_66);
    [vm_compute; lia | reflexivity | reflexivity].
Defined.

(** A probability that is NaN or infinite is not rejected: its margin is
    NaN or infinite too, no margin test holds, both margin indicators are
    false and the tier is decided by the word count alone, up to High for a
    text of 200 words or more. *)
Theorem non_finite_probability (text : str) (ai_prob : float) :
  not_finite ai_prob = true ->
  let r := estimate_confidence text ai_prob in
  let wc := est_word_count r in
  not_finite (est_margin r) = true
  /\ est_indicators r
     = [(short_text_key, (wc <? 100)%nat); (near_50_key, false);
        (low_margin_key, false)]
  /\ est_confidence r
     = (if (wc <? 100)%nat then Low_Confidence
        else if (wc <? 200)%nat then Medium_Confidence
        else High_Confidence).
Proof.
  intros Hp. cbv zeta. rewrite est_confidence_cases. cbv zeta.
  unfold est_word_count, est_margin, est_indicators, estimate_confidence.
  simpl.
  destruct ai_prob as [s | [] | | s m e]; try discriminate Hp;
    repeat split; simpl; rewrite ?orb_false_r; reflexivity.
Qed.

Lemma non_finite_probability_witness :
  not_finite S754_nan = true
  /\ est_confidence (estimate_confidence (words 200) S754_nan)
     = High_Confidence.
Proof.
  split; [reflexivity |].
  destruct (non_finite_probability (words 200) S754_nan eq_refl)
    as (_ & _ & H).
  rewrite H. reflexivity.
Defined.

(** * Further properties of the page *)

Section Page.

Variable detector : str -> list (list item) + exn.

Lemma for_each_emit {A} (l : list A) (body : A -> M unit) (g : A -> event) :
  (forall x, body x = emit (g x)) ->
  for_each l body = (inl tt, map g l).
Proof.
  intros Hb. induction l as [| x l IH]; [reflexivity |].
  simpl. rewrite Hb, IH. reflexivity.
Qed.

(** What the page shows for a result: nine lines, one line per indicator,
    six more lines; showing it raises nothing. *)
Lemma show_result_events (ai_prob : float) (r : estimate) :
  show_result ai_prob r
  = (inl tt,
     [ sidebar (header "📊 Detection Result");
       sidebar (metric "AI Probability"
                  [Fixed2 (fmul ai_prob (of_int 100)); Lit "%"]);
       sidebar (metric "Human Probability"
                  [Fixed2 (fmul (human_prob ai_prob) (of_int 100)); Lit "%"]);
       sidebar divider;
       sidebar (header "🧠 Model Uncertainty");
       sidebar (markdown [Lit "**Confidence Level:** ";
                          Lit (est_confidence r)]);
       sidebar (markdown [Lit "- Word count: **"; Int (est_word_count r);
                          Lit "**"]);
       sidebar (markdown [Lit "- Prediction margin: **";
                          Fixed3 (est_margin r); Lit "**"]);
       sidebar (markdown [Lit "**Uncertainty Indicators:**"]) ]
     ++ map (fun kv : string * bool =>
               sidebar (markdown [Lit (if kv.2 then "✅ " else "❌ ");
                                  Lit kv.1]))
          (est_indicators r)
     ++ [ sidebar divider;
          sidebar (header "⚠️ System Limitations");
          sidebar (markdown [Lit system_limitations]);
          main (subheader "📈 Probability Visualization");
          main (bar_chart [("AI", ai_prob); ("Human", human_prob ai_prob)]);
          main (info "Interpret results with caution. Prediction confidence depends on text length and prediction margin.") ])%list.
Proof.
  destruct r as [[[confidence indicators] word_count] margin].
  unfold show_result.
  erewrite (for_each_emit indicators _
              (fun kv : string * bool =>
                 sidebar (markdown [Lit (if kv.2 then "✅ " else "❌ ");
                                    Lit kv.1]))).
  - reflexivity.
  - intros [k []]; reflexivity.
Qed.

Lemma truthy_strip (text : str) : truthy (strip text) = negb (blank text).
Proof.
  destruct (blank text) eqn:Hb.
  - apply blank_strip in Hb. rewrite Hb. reflexivity.
  - destruct (strip text) eqn:E; [| reflexivity].
    apply blank_strip in E. congruence.
Qed.

(** The three ways a triggered analysis of a non-blank text can go. *)
Lemma app_analysis (user_text : str) :
  blank user_text = false ->
  app detector user_text true
  = match detector user_text with
    | inl (outputs :: _) =>
        let ai_prob := default f0_5 (scores_of outputs !! "AI") in
        (inl tt,
         page_top
         ++ [enter "predict_ai_probability"; inference user_text;
             enter "estimate_confidence"]
         ++ trace (show_result ai_prob
                     (estimate_confidence user_text ai_prob)))%list
    | inl [] =>
        (inr IndexError,
         page_top
         ++ [enter "predict_ai_probability"; inference user_text])%list
    | inr e =>
        (inr e,
         page_top
         ++ [enter "predict_ai_probability"; inference user_text])%list
    end.
Proof.
  intros Hb. unfold app. rewrite truthy_strip, Hb.
  unfold predict_ai_probability, call_detector, run_estimate_confidence.
  destruct (detector user_text) as [[| outputs rest] | e];
    cbn -[show_result estimate_confidence]; try reflexivity.
  rewrite show_result_events. reflexivity.
Qed.

Lemma blank_run (user_text : str) :
  blank user_text = true ->
  trace (app detector user_text true)
  = (page_top ++ [main (warning "Please enter some text before analysis.")])%list
  /\ outcome (app detector user_text true) = inl tt.
Proof.
  intros Hb. unfold app. rewrite truthy_strip, Hb. split; reflexivity.
Qed.

End Page.

Lemma indicator_lines_rendered (l : list (string * bool)) :
  omap indicator_line
    (map (fun kv : string * bool =>
            sidebar (markdown [Lit (if kv.2 then "✅ " else "❌ ");
                               Lit kv.1])) l) = l.
Proof.
  induction l as [| [k []] l IH]; simpl; [reflexivity | |];
    f_equal; exact IH.
Qed.

Lemma indicator_lines_of_result (ai_prob : float) (r : estimate) :
  indicator_lines (trace (show_result ai_prob r)) = est_indicators r.
Proof.
  rewrite show_result_events.
  unfold indicator_lines, trace. cbn [snd].
  rewrite omap_app, omap_app, indicator_lines_rendered.
  simpl. apply app_nil_r.
Qed.

(** The indicator lines of the page, read back, are the indicators of the
    result, in their order and with a check mark exactly on the true ones;
    no other line of the page reads as an indicator. *)
Theorem indicator_lines_show_result (ai_prob : float) (r : estimate) :
  indicator_lines (trace (show_result ai_prob r)) = est_indicators r
  /\ outcome (show_result ai_prob r) = inl tt.
Proof.
  split; [apply indicator_lines_of_result |].
  rewrite show_result_events. reflexivity.
Qed.

(** The model is run exactly when the button was pressed and the text is
    not blank, then once, and on the text as it was typed, not on the
    stripped text; without the button the run shows the top of the page and
    nothing else. This holds however the model answers or fails. *)
Theorem model_runs_once_on_raw_text
  (detector : str -> list (list item) + exn)
  (user_text : str) (analyze_btn : bool) :
  inferences (trace (app detector user_text analyze_btn))
  = (if analyze_btn && negb (blank user_text) then [user_text] else [])
  /\ app detector user_text false = (inl tt, page_top).
Proof.
  split; [| reflexivity].
  destruct analyze_btn; [| reflexivity].
  destruct (blank user_text) eqn:Hb.
  - destruct (blank_run detector user_text Hb)
      as [-> _]. reflexivity.
  - rewrite (app_analysis detector user_text Hb).
    destruct (detector user_text) as [[| outputs rest] | e];
      try reflexivity.
    cbv zeta. rewrite show_result_events.
    unfold inferences, trace. cbn [snd].
    rewrite !omap_app. reflexivity.
Qed.

(** When the model fails, or answers with an empty list so that [[0]]
    raises [IndexError], the exception is not caught: the run ends with it
    right after the inference, [estimate_confidence] is never entered and
    the page shows neither a probability nor an indicator. *)
Theorem inference_failure_propagates
  (detector : str -> list (list item) + exn) (user_text : str) (e : exn) :
  blank user_text = false ->
  detector user_text = inr e
  \/ (detector user_text = inl [] /\ e = IndexError) ->
  let run := app detector user_text true in
  outcome run = inr e
  /\ trace run
     = (page_top
        ++ [enter "predict_ai_probability"; inference user_text])%list
  /\ entered (trace run) = ["predict_ai_probability"]
  /\ existsb shows_probability (trace run) = false
  /\ indicator_lines (trace run) = [].
Proof.
  intros Hb Hd. cbv zeta. rewrite (app_analysis detector user_text Hb).
  destruct Hd as [-> | [-> ->]]; repeat split; reflexivity.
Qed.

Lemma inference_failure_propagates_witness :
  let detector := fun _ : str => inl [] : list (list item) + exn in
  blank (of_string "some text") = false
  /\ outcome (app detector (of_string "some text") true) = inr IndexError.
Proof.
  cbv zeta. split; [reflexivity |].
  apply (inference_failure_propagates
           (fun _ : str => inl []) (of_string "some text") IndexError);
    [reflexivity | right; split; reflexivity].
Defined.

(** A triggered analysis of a non-blank text that the model answers ends
    normally; it enters [predict_ai_probability] and then
    [estimate_confidence], each once; the indicator lines it shows are the
    indicators the estimator returned for the typed text and the predicted
    probability; and the chart holds that probability and its complement. *)
Theorem analysis_shows_estimate
  (detector : str -> list (list item) + exn) (user_text : str)
  (outputs : list item) (rest : list (list item)) :
  blank user_text = false ->
  detector user_text = inl (outputs :: rest) ->
  let ai_prob := default f0_5 (scores_of outputs !! "AI") in
  let r := estimate_confidence user_text ai_prob in
  let run := app detector user_text true in
  outcome run = inl tt
  /\ entered (trace run) = ["predict_ai_probability"; "estimate_confidence"]
  /\ indicator_lines (trace run) = est_indicators r
  /\ In (sidebar (markdown [Lit "**Confidence Level:** ";
                           Lit (est_confidence r)])) (trace run)
  /\ In (main (bar_chart [("AI", ai_prob); ("Human", human_prob ai_prob)]))
       (trace run).
Proof.
  intros Hb Hd. cbv zeta. rewrite (app_analysis detector user_text Hb), Hd.
  cbv zeta. unfold outcome, trace. cbn [fst snd].
  split; [reflexivity |].
  set (p := default f0_5 (scores_of outputs !! "AI")).
  set (r := estimate_confidence user_text p).
  pose proof (indicator_lines_of_result p r) as Hl.
  pose proof (show_result_events p r) as Hs.
  split; [| split; [| split]].
  - unfold entered. rewrite !omap_app. rewrite Hs. cbn [snd].
    rewrite !omap_app.
    assert (E : forall l : list (string * bool),
      omap (fun e => match e with enter f => Some f | _ => None end)
        (map (fun kv : string * bool =>
                sidebar (markdown [Lit (if kv.2 then "✅ " else "❌ ");
                                   Lit kv.1])) l) = []).
    { induction l as [| kv l IH]; [reflexivity | exact IH]. }
    rewrite E. reflexivity.
  - unfold indicator_lines in *. rewrite !omap_app.
    unfold trace in Hl. rewrite Hl. reflexivity.
  - rewrite Hs. cbn [snd]. apply in_or_app. right. apply in_or_app. right.
    apply in_or_app. left. simpl. tauto.
  - rewrite Hs. cbn [snd]. apply in_or_app. right. apply in_or_app. right.
    apply in_or_app. right. apply in_or_app. right. simpl. tauto.
Qed.

Lemma analysis_shows_estimate_witness :
  let detector := fun _ : str =>
    inl [[ {| label := "AI"; score := f0_95 |};
           {| label := "Human"; score := f0_25 |} ]] : list (list item) + exn in
  blank (words 250) = false
  /\ indicator_lines (trace (app detector (words 250) true))
     = [(short_text_key, false); (near_50_key, false);
        (low_margin_key, false)].
Proof.
  cbv zeta. split; [reflexivity |].
  destruct (analysis_shows_estimate
              (fun _ : str =>
                 inl [[ {| label := "AI"; score := f0_95 |};
                        {| label := "Human"; score := f0_25 |} ]])
              (words 250) _ _ eq_refl eq_refl) as (_ & _ & H & _).
  rewrite H. reflexivity.
Defined.

(** A model whose scores carry no label "AI" makes every analysis come out
    the same way, whatever the text: AI and human probability are both 0.5,
    shown as 50 percent each, the margin is 0, the two margin indicators are
    true and the tier is Low. *)
Theorem unlabelled_model_always_low
  (detector : str -> list (list item) + exn) (user_text : str)
  (outputs : list item) (rest : list (list item)) :
  blank user_text = false ->
  detector user_text = inl (outputs :: rest) ->
  Forall (fun it => label it <> "AI") outputs ->
  let r := estimate_confidence user_text f0_5 in
  trace (app detector user_text true)
  = (page_top
     ++ [enter "predict_ai_probability"; inference user_text;
         enter "estimate_confidence"]
     ++ trace (show_result f0_5 r))%list
  /\ human_prob f0_5 = f0_5
  /\ fmul f0_5 (of_int 100) = of_int 50
  /\ est_margin r = zero
  /\ est_indicators r
     = [(short_text_key, (est_word_count r <? 100)%nat);
        (near_50_key, true); (low_margin_key, true)]
  /\ est_confidence r = Low_Confidence.
Proof.
  intros Hb Hd Hno. cbv zeta.
  rewrite (app_analysis detector user_text Hb), Hd. cbv zeta.
  assert (E : scores_of outputs !! "AI" = None).
  { rewrite scores_of_lookup.
    assert (F : filter (fun it => label it = "AI") outputs = []).
    { clear Hd. induction Hno as [| it l Hit _ IH]; [reflexivity |].
      rewrite filter_cons. destruct (decide _); [contradiction | exact IH]. }
    rewrite F. reflexivity. }
  rewrite E. cbn [default].
  split; [reflexivity |]. split; [reflexivity |]. split; [reflexivity |].
  split; [reflexivity |]. split; [reflexivity |].
  rewrite est_confidence_cases. cbv zeta.
  change (fltb (fabs (fsub f0_5 f0_5)) f0_1) with true.
  rewrite orb_true_r. reflexivity.
Qed.

Lemma unlabelled_model_always_low_witness :
  let detector := fun _ : str =>
    inl [[ {| label := "Real"; score := f0_95 |};
           {| label := "Fake"; score := f0_25 |} ]] : list (list item) + exn in
  blank (words 250) = false
  /\ est_confidence (estimate_confidence (words 250) f0_5) = Low_Confidence.
Proof.
  cbv zeta. split; [reflexivity |].
  apply (unlabelled_model_always_low
           (fun _ : str =>
              inl [[ {| label := "Real"; score := f0_95 |};
                     {| label := "Fake"; score := f0_25 |} ]])
           (words 250) _ _ eq_refl eq_refl).
  repeat constructor; discriminate.
Defined.

Section Scores.

Lemma filter_label_short (outputs : list item) (l : string) :
  NoDup (label <$> outputs) ->
  (length (filter (fun it => label it = l) outputs) <= 1)%nat.
Proof.
  induction outputs as [| it outputs IH]; intros Hnd; [simpl; lia |].
  rewrite fmap_cons in Hnd. apply NoDup_cons in Hnd.
  destruct Hnd as [Hnotin Hnd]. rewrite filter_cons.
  destruct (decide (label it = l)) as [E | E]; [| apply IH; exact Hnd].
  assert (F : filter (fun it => label it = l) outputs = []).
  { destruct (filter (fun it => label it = l) outputs) as [| it' f] eqn:Ef;
      [reflexivity |].
    assert (Hin : it' ∈ filter (fun it => label it = l) outputs)
      by (rewrite Ef; left).
    apply list_elem_of_filter in Hin. destruct Hin as [Hl Hin].
    exfalso. apply Hnotin. rewrite E, <- Hl.
    apply list_elem_of_fmap. exists it'. split; [reflexivity | exact Hin]. }
  rewrite F. simpl. lia.
Qed.

End Scores.

(** With distinct labels, the dictionary of scores does not depend on the
    order in which the model lists them; and whatever follows the first
    result list is ignored. So two answers whose first lists are
    permutations of each other give the same AI probability. *)
Theorem score_order_irrelevant
  (detector detector' : str -> list (list item) + exn) (text text' : str)
  (outputs outputs' : list item) (rest rest' : list (list item)) :
  detector text = inl (outputs :: rest) ->
  detector' text' = inl (outputs' :: rest') ->
  NoDup (label <$> outputs) ->
  outputs ≡ₚ outputs' ->
  scores_of outputs = scores_of outputs'
  /\ outcome (predict_ai_probability detector text)
     = outcome (predict_ai_probability detector' text').
Proof.
  intros Hd Hd' Hnd Hp.
  assert (E : scores_of outputs = scores_of outputs').
  { apply map_eq. intros l. rewrite !scores_of_lookup. f_equal.
    pose proof (filter_label_short outputs l Hnd) as Hlen.
    assert (Hpf : filter (fun it => label it = l) outputs
                  ≡ₚ filter (fun it => label it = l) outputs')
      by (rewrite Hp; reflexivity).
    pose proof (Permutation_length Hpf) as Hlen'.
    destruct (filter (fun it => label it = l) outputs) as [| a [| b f]];
      destruct (filter (fun it => label it = l) outputs') as [| a' [| b' f']];
      simpl in *; try lia; [reflexivity |].
    apply Permutation_singleton_inj in Hpf. rewrite Hpf. reflexivity. }
  split; [exact E |].
  rewrite (predict_outcome _ _ _ _ Hd), (predict_outcome _ _ _ _ Hd'), E.
  reflexivity.
Qed.

Lemma score_order_irrelevant_witness :
  let ai := {| label := "AI"; score := f0_95 |} in
  let human := {| label := "Human"; score := f0_25 |} in
  outcome (predict_ai_probability (fun _ => inl [[ai; human]])
             (of_string "some text"))
  = outcome (predict_ai_probability (fun _ => inl [[human; ai]; [human]])
               (of_string "other text")).
Proof.
  cbv zeta.
  apply (score_order_irrelevant _ _ (of_string "some text")
           (of_string "other text") _ _ _ _ eq_refl eq_refl).
  - repeat constructor; rewrite ?list_elem_of_In; simpl;
      intros H; repeat destruct H as [H | H]; try discriminate H; exact H.
  - apply perm_swap.
Defined.

(** * Further properties of the probabilities *)

Section Exact.

Local Open Scope Z_scope.

(** The sign given to the rounding functions only labels the result. *)
Lemma binary_round_aux_sign (s : bool) (m e : Z) (l : location) :
  binary_round_aux prec emax s m e l
  = with_sign s (binary_round_aux prec emax false m e l).
Proof.
  unfold binary_round_aux.
  destruct (shr_fexp prec emax m e l) as [mrs' e'].
  destruct (shr_fexp prec emax _ e' loc_Exact) as [mrs'' e''].
  destruct (shr_m mrs''); try reflexivity.
  destruct (e'' <=? emax - prec); reflexivity.
Qed.

Lemma binary_round_sign (s : bool) (m : positive) (e : Z) :
  binary_round prec emax s m e
  = with_sign s (binary_round prec emax false m e).
Proof.
  unfold binary_round. destruct (shl_align _ _ _) as [mz ez].
  apply binary_round_aux_sign.
Qed.

(** A number that fits in 53 digits is not rounded, however many zero bits
    its mantissa is written with: the result is its normal form. *)
Lemma binary_round_exact (s : bool) (a : positive) (j e : Z) :
  let d := Z.pos (digits2_pos a) in
  d <= 53 -> 0 <= j -> -1074 <= e + d - 53 -> e + d - 53 <= 970 ->
  binary_round prec emax s (Z.to_pos (Z.pos a * 2 ^ j)) (e - j)
  = S754_finite s (Z.to_pos (Z.pos a * 2 ^ (53 - d))) (e + d - 53).
Proof.
  cbv zeta. intros Hd Hj He1 He2.
  pose proof (digits2_pos_lower a) as Hlo.
  pose proof (digits2_pos_upper a) as Hup.
  set (d := Z.pos (digits2_pos a)) in *.
  assert (Hd1 : 1 <= d) by (unfold d; lia).
  assert (HJ : 0 < 2 ^ j) by (apply Z.pow_pos_nonneg; lia).
  assert (HS : 0 < 2 ^ (53 - d)) by (apply Z.pow_pos_nonneg; lia).
  assert (Hmlo : 2 ^ (d + j - 1) <= Z.pos a * 2 ^ j).
  { replace (d + j - 1) with (d - 1 + j) by lia.
    rewrite Z.pow_add_r by lia. nia. }
  assert (Hmup : Z.pos a * 2 ^ j < 2 ^ (d + j)).
  { rewrite Z.pow_add_r by lia. nia. }
  assert (Hqlo : 2 ^ 52 <= Z.pos a * 2 ^ (53 - d)).
  { replace 52 with (d - 1 + (53 - d)) at 1 by lia.
    rewrite Z.pow_add_r by lia. nia. }
  assert (Hqup : Z.pos a * 2 ^ (53 - d) < 2 ^ 53).
  { replace 53 with (d + (53 - d)) at 2 by lia.
    rewrite Z.pow_add_r by lia. nia. }
  destruct (Z.pos a * 2 ^ j) as [| m | m] eqn:Em; try lia.
  destruct (Z.pos a * 2 ^ (53 - d)) as [| q | q] eqn:Eq; try lia.
  cbn [Z.to_pos].
  assert (Hdm : Z.pos (digits2_pos m) = d + j)
    by (apply digits2_pos_bounds; lia).
  assert (Hdq : Z.pos (digits2_pos q) = 53)
    by (apply digits2_pos_bounds; change (53 - 1) with 52; lia).
  destruct (Z.le_gt_cases (d + j) 53) as [Hle | Hgt].
  - (* written with at most 53 digits: shift left *)
    unfold binary_round. rewrite Hdm.
    replace (d + j + (e - j)) with (d + e) by lia.
    rewrite fexp_normal by lia.
    rewrite shl_align_le by lia.
    replace (e - j - (d + e - 53)) with (53 - d - j) by lia.
    assert (Emq : Z.pos m * 2 ^ (53 - d - j) = Z.pos q).
    { rewrite <- Em, <- Eq, <- Z.mul_assoc, <- Z.pow_add_r by lia.
      f_equal. f_equal. lia. }
    rewrite Emq. cbn [Z.to_pos].
    rewrite binary_round_aux_canonical; [f_equal; lia | | lia].
    unfold canonical_mantissa. rewrite Hdq. apply Z.eqb_eq.
    rewrite fexp_normal by lia. lia.
  - (* written with more: the bits shifted out are zero *)
    rewrite binary_round_sign.
    destruct (binary_round_normal m (e - j) (d + j - 53))
      as (q' & Hr & ->); [lia | | lia | lia |].
    { replace (52 + (d + j - 53)) with (d + j - 1) by lia.
      replace (53 + (d + j - 53)) with (d + j) by lia. lia. }
    assert (HK : 0 < 2 ^ (d + j - 53)) by (apply Z.pow_pos_nonneg; lia).
    assert (Emq : Z.pos m = 2 ^ (d + j - 53) * Z.pos q + 0).
    { rewrite <- Em, <- Eq, Z.add_0_r, (Z.mul_comm (2 ^ (d + j - 53))),
        <- Z.mul_assoc, <- Z.pow_add_r by lia.
      f_equal. f_equal. lia. }
    apply (rounds_to_inv _ _ _ (Z.pos q) 0 HK ltac:(lia) Emq) in Hr.
    assert (q' = Z.pos q) by lia. subst q'.
    destruct (Z.ltb_spec (Z.pos q) (2 ^ 53)); [| lia].
    cbn [with_sign Z.to_pos]. f_equal. lia.
Qed.

End Exact.

Section Ranges.

Local Open Scope Z_scope.

(** The normal form of a number of at most 53 digits is a valid float. *)
Lemma normal_form_valid (s : bool) (a : positive) (e : Z) :
  let d := Z.pos (digits2_pos a) in
  d <= 53 -> -1074 <= e + d - 53 -> e + d - 53 <= 971 ->
  valid (S754_finite s (Z.to_pos (Z.pos a * 2 ^ (53 - d))) (e + d - 53))
  = true.
Proof.
  cbv zeta. intros Hd He1 He2.
  pose proof (digits2_pos_lower a) as Hlo.
  pose proof (digits2_pos_upper a) as Hup.
  set (d := Z.pos (digits2_pos a)) in *.
  assert (Hd1 : 1 <= d) by (unfold d; lia).
  assert (HS : 0 < 2 ^ (53 - d)) by (apply Z.pow_pos_nonneg; lia).
  assert (Hqlo : 2 ^ 52 <= Z.pos a * 2 ^ (53 - d)).
  { replace 52 with (d - 1 + (53 - d)) at 1 by lia.
    rewrite Z.pow_add_r by lia. nia. }
  assert (Hqup : Z.pos a * 2 ^ (53 - d) < 2 ^ 53).
  { replace 53 with (d + (53 - d)) at 2 by lia.
    rewrite Z.pow_add_r by lia. nia. }
  destruct (Z.pos a * 2 ^ (53 - d)) as [| q | q] eqn:Eq; try lia.
  cbn [Z.to_pos].
  assert (Hdq : Z.pos (digits2_pos q) = 53)
    by (apply digits2_pos_bounds; change (53 - 1) with 52; lia).
  unfold valid, valid_binary, bounded, canonical_mantissa.
  rewrite Hdq, fexp_normal by lia.
  apply andb_true_iff. split; [apply Z.eqb_eq | apply Z.leb_le];
    unfold prec, emax; lia.
Qed.

(** A mantissa of 53 digits with an exponent in range is a valid float. *)
Lemma full_mantissa_valid (s : bool) (q e : Z) :
  2 ^ 52 <= q < 2 ^ 53 -> -1074 <= e <= 971 ->
  valid (S754_finite s (Z.to_pos q) e) = true.
Proof.
  intros Hq He. destruct q as [| q | q]; try (simpl in Hq; lia).
  cbn [Z.to_pos].
  assert (Hdq : Z.pos (digits2_pos q) = 53)
    by (apply digits2_pos_bounds; change (53 - 1) with 52; lia).
  unfold valid, valid_binary, bounded, canonical_mantissa.
  rewrite Hdq, fexp_normal by lia.
  apply andb_true_iff. split; [apply Z.eqb_eq | apply Z.leb_le];
    unfold prec, emax; lia.
Qed.

(** The rounded mantissa of a number of 53 + k digits has 53 digits, or is
    2^53. *)
Lemma rounds_to_range (m k q' : Z) :
  0 <= k -> 2 ^ (52 + k) <= m < 2 ^ (53 + k) -> rounds_to m k q' ->
  2 ^ 52 <= q' <= 2 ^ 53.
Proof.
  intros Hk Hm Hr.
  assert (HK : 0 < 2 ^ k) by (apply Z.pow_pos_nonneg; lia).
  rewrite !Z.pow_add_r in Hm by lia.
  assert (Hq : 2 ^ 52 <= m / 2 ^ k < 2 ^ 53).
  { split; [apply Z.div_le_lower_bound | apply Z.div_lt_upper_bound]; lia. }
  unfold rounds_to in Hr. cbv zeta in Hr. lia.
Qed.

(** 1 - p for 1/2 <= p < 1, computed exactly: the normal form of
    (2^53 - mx) * 2^-53. *)
Lemma fsub_one_upper (mx : positive) :
  2 ^ 52 <= Z.pos mx < 2 ^ 53 ->
  exists n : positive,
    Z.pos n = 2 ^ 53 - Z.pos mx
    /\ Z.pos (digits2_pos n) <= 53
    /\ fsub one (S754_finite false mx (-53))
       = S754_finite false
           (Z.to_pos (Z.pos n * 2 ^ (53 - Z.pos (digits2_pos n))))
           (Z.pos (digits2_pos n) - 106).
Proof.
  intros Hm.
  change (2 ^ 52) with 4503599627370496 in Hm.
  change (2 ^ 53) with 9007199254740992 in *.
  unfold fsub, SFsub, one. cbv zeta.
  change (Z.min (-52) (-53)) with (-53).
  change (fst (shl_align 4503599627370496 (-52) (-53)))
    with 9007199254740992%positive.
  rewrite (shl_align_ge mx (-53) (-53)) by lia.
  cbn [fst cond_Zopp].
  destruct (9007199254740992 - Z.pos mx) as [| n | n] eqn:En; try lia.
  exists n. split; [reflexivity |].
  pose proof (digits2_pos_lower n) as Hlo.
  assert (Hd : Z.pos (digits2_pos n) <= 53).
  { destruct (Z.le_gt_cases (Z.pos (digits2_pos n)) 53) as [| Hgt];
      [assumption |].
    assert (2 ^ 53 <= 2 ^ (Z.pos (digits2_pos n) - 1))
      by (apply Z.pow_le_mono_r; lia).
    change (2 ^ 53) with 9007199254740992 in *. lia. }
  split; [exact Hd |].
  cbn [binary_normalize].
  pose proof (binary_round_exact false n 0 (-53) Hd ltac:(lia)) as H.
  cbv zeta in H.
  rewrite Z.mul_1_r, Z.sub_0_r in H. cbn [Z.to_pos] in H.
  rewrite H by lia. f_equal. lia.
Qed.

End Ranges.

(** The human probability of a probability is a probability: for every
    float p of [0, 1], 1 - p is a valid float of [0, 1] again, rounding
    included. *)
Theorem human_prob_is_probability (ai_prob : float) :
  valid ai_prob = true ->
  fleb zero ai_prob = true -> fleb ai_prob one = true ->
  valid (human_prob ai_prob) = true
  /\ fleb zero (human_prob ai_prob) = true
  /\ fleb (human_prob ai_prob) one = true.
Proof.
  intros Hv H0 H1.
  change (human_prob ai_prob) with (fsub one ai_prob).
  destruct (probability_cases ai_prob Hv H0 H1)
    as [(s & ->) | [-> | [(mx & -> & Hm) | (mx & ex & -> & Hm & He)]]].
  - destruct s; repeat split; reflexivity.
  - repeat split; reflexivity.
  - destruct (fsub_one_upper mx Hm) as (n & Hn & Hd & ->).
    pose proof (normal_form_valid false n (-53)%Z Hd) as Hvalid.
    cbv zeta in Hvalid.
    replace (-53 + Z.pos (digits2_pos n) - 53)%Z
      with (Z.pos (digits2_pos n) - 106)%Z in Hvalid by lia.
    split; [apply Hvalid; lia |]. split; [reflexivity |].
    unfold one. apply fleb_pos_finite. lia.
  - destruct (fsub_one_small mx ex Hm He) as (q' & Hr & ->).
    assert (Hq : (2 ^ 52 <= q' <= 2 ^ 53)%Z).
    { refine (rounds_to_range _ _ _ _ _ Hr); [lia |].
      destruct (pow2_split (-53 - ex)%Z ltac:(lia)) as (E52 & E53 & _).
      rewrite E52, E53.
      assert (2 <= 2 ^ (-53 - ex))%Z.
      { change 2%Z with (2 ^ 1)%Z at 1. apply Z.pow_le_mono_r; lia. }
      change (2 ^ 53)%Z with 9007199254740992%Z in Hm. lia. }
    destruct (Z.ltb_spec q' (2 ^ 53)%Z) as [Hlt | Hge].
    + split; [apply full_mantissa_valid; lia |].
      split; [reflexivity |].
      unfold one. apply fleb_pos_finite. lia.
    + repeat split; reflexivity.
Qed.

Lemma human_prob_is_probability_witness :
  valid f0_1 = true /\ fleb zero f0_1 = true /\ fleb f0_1 one = true
  /\ fleb (human_prob f0_1) one = true.
Proof.
  split; [reflexivity |]. split; [reflexivity |]. split; [reflexivity |].
  apply (human_prob_is_probability f0_1); reflexivity.
Defined.

Section Mirror.

Local Open Scope Z_scope.

(** p - 1/2 for 1/2 <= p < 1, computed exactly: zero, or the normal form of
    (mx - 2^52) * 2^-53. *)
Lemma fsub_half_upper (mx : positive) :
  2 ^ 52 <= Z.pos mx < 2 ^ 53 ->
  (Z.pos mx = 2 ^ 52
   /\ fsub (S754_finite false mx (-53)) f0_5 = S754_zero false)
  \/ (exists a : positive,
        Z.pos a = Z.pos mx - 2 ^ 52
        /\ Z.pos (digits2_pos a) <= 52
        /\ fsub (S754_finite false mx (-53)) f0_5
           = S754_finite false
               (Z.to_pos (Z.pos a * 2 ^ (53 - Z.pos (digits2_pos a))))
               (Z.pos (digits2_pos a) - 106)).
Proof.
  intros Hm.
  change (2 ^ 52) with 4503599627370496 in *.
  change (2 ^ 53) with 9007199254740992 in *.
  unfold fsub, SFsub, f0_5. cbv zeta.
  change (Z.min (-53) (-53)) with (-53).
  rewrite !shl_align_ge by lia.
  cbn [fst cond_Zopp].
  destruct (Z.pos mx - 4503599627370496) as [| a | a] eqn:Ea; try lia.
  - left. split; [lia | reflexivity].
  - right. exists a. split; [reflexivity |].
    pose proof (digits2_pos_lower a) as Hlo.
    assert (Hd : Z.pos (digits2_pos a) <= 52).
    { destruct (Z.le_gt_cases (Z.pos (digits2_pos a)) 52) as [| Hgt];
        [assumption |].
      assert (2 ^ 52 <= 2 ^ (Z.pos (digits2_pos a) - 1))
        by (apply Z.pow_le_mono_r; lia).
      change (2 ^ 52) with 4503599627370496 in *. lia. }
    split; [exact Hd |].
    cbn [binary_normalize].
    pose proof (binary_round_exact false a 0 (-53) ltac:(lia) ltac:(lia))
      as H.
    cbv zeta in H.
    rewrite Z.mul_1_r, Z.sub_0_r in H. cbn [Z.to_pos] in H.
    rewrite H by lia. f_equal. lia.
Qed.

(** (1 - p) - 1/2 for 1/2 <= p < 1 is the negation of p - 1/2, a zero
    apart. *)
Lemma fsub_half_mirror (mx : positive) :
  2 ^ 52 <= Z.pos mx < 2 ^ 53 ->
  fabs (fsub (fsub one (S754_finite false mx (-53))) f0_5)
  = fabs (fsub (S754_finite false mx (-53)) f0_5).
Proof.
  intros Hm.
  destruct (fsub_one_upper mx Hm) as (n & Hn & Hd & ->).
  pose proof (digits2_pos_lower n) as Hlo.
  pose proof (digits2_pos_upper n) as Hup.
  set (d := Z.pos (digits2_pos n)) in *.
  assert (Hd1 : 1 <= d) by (unfold d; lia).
  set (S := 2 ^ (53 - d)).
  assert (HS : 1 <= S).
  { change 1 with (2 ^ 0). apply Z.pow_le_mono_r; lia. }
  change (2 ^ 52) with 4503599627370496 in *.
  change (2 ^ 53) with 9007199254740992 in *.
  assert (HnS : 0 < Z.pos n * S) by nia.
  assert (Hsub : forall z : Z,
    Z.pos n * S - 4503599627370496 * S = z ->
    fsub (S754_finite false (Z.to_pos (Z.pos n * S)) (d - 106)) f0_5
    = binary_normalize prec emax z (d - 106) false).
  { intros z Hz. unfold fsub, SFsub, f0_5. cbv zeta.
    rewrite Z.min_l by lia.
    rewrite (shl_align_ge _ (d - 106) (d - 106)) by lia.
    rewrite (shl_align_le _ (-53) (d - 106)) by lia.
    cbn [fst cond_Zopp].
    replace (-53 - (d - 106)) with (53 - d) by lia. fold S.
    rewrite !Z2Pos.id by lia. rewrite Hz. reflexivity. }
  destruct (fsub_half_upper mx) as [(Hmx & ->) | (a & Ha & Hda & ->)];
    [change (2 ^ 52) with 4503599627370496;
     change (2 ^ 53) with 9007199254740992; lia | |];
    change (2 ^ 52) with 4503599627370496 in *.
  - rewrite (Hsub 0) by nia. reflexivity.
  - assert (HaS : 0 < Z.pos a * S) by nia.
    rewrite (Hsub (- (Z.pos a * S))) by nia.
    destruct (Z.pos a * S) as [| m | m] eqn:Em; try lia.
    change (- Z.pos m) with (Z.neg m). cbn [binary_normalize].
    pose proof (binary_round_exact true a (53 - d) (-53)
                  ltac:(lia) ltac:(lia)) as H.
    cbv zeta in H. fold S in H. rewrite Em in H. cbn [Z.to_pos] in H.
    replace (-53 - (53 - d)) with (d - 106) in H by lia.
    rewrite H by lia. cbn [fabs SFabs]. f_equal. lia.
Qed.

(** 1 - (1 - p) for 1/2 <= p < 1 is p again. *)
Lemma fsub_one_twice (mx : positive) :
  2 ^ 52 <= Z.pos mx < 2 ^ 53 ->
  fsub one (fsub one (S754_finite false mx (-53)))
  = S754_finite false mx (-53).
Proof.
  intros Hm.
  destruct (fsub_one_upper mx Hm) as (n & Hn & Hd & ->).
  pose proof (digits2_pos_lower n) as Hlo.
  pose proof (digits2_pos_upper n) as Hup.
  set (d := Z.pos (digits2_pos n)) in *.
  assert (Hd1 : 1 <= d) by (unfold d; lia).
  set (S := 2 ^ (53 - d)).
  assert (HS : 1 <= S).
  { change 1 with (2 ^ 0). apply Z.pow_le_mono_r; lia. }
  assert (E2S : 2 ^ (54 - d) = 2 * S).
  { unfold S. replace (54 - d) with (Z.succ (53 - d)) by lia.
    rewrite Z.pow_succ_r by lia. reflexivity. }
  change (2 ^ 52) with 4503599627370496 in *.
  change (2 ^ 53) with 9007199254740992 in *.
  assert (HnS : 0 < Z.pos n * S) by nia.
  unfold fsub, SFsub, one. cbv zeta.
  rewrite Z.min_r by lia.
  rewrite (shl_align_ge _ (d - 106) (d - 106)) by lia.
  rewrite (shl_align_le _ (-52) (d - 106)) by lia.
  cbn [fst cond_Zopp].
  replace (-52 - (d - 106)) with (54 - d) by lia. rewrite E2S.
  rewrite !Z2Pos.id by lia.
  replace (4503599627370496 * (2 * S) - Z.pos n * S)
    with (Z.pos mx * S) by nia.
  assert (HmS : 0 < Z.pos mx * S) by nia.
  destruct (Z.pos mx * S) as [| m | m] eqn:Em; try lia.
  cbn [binary_normalize].
  assert (Hdm : Z.pos (digits2_pos mx) = 53).
  { apply digits2_pos_bounds.
    change (2 ^ (53 - 1)) with 4503599627370496.
    change (2 ^ 53) with 9007199254740992. lia. }
  pose proof (binary_round_exact false mx (53 - d) (-53)) as H.
  cbv zeta in H. rewrite Hdm in H. fold S in H. rewrite Em in H.
  cbn [Z.to_pos] in H.
  replace (-53 - (53 - d)) with (d - 106) in H by lia.
  rewrite H by lia.
  change (2 ^ (53 - 53)) with 1. rewrite Z.mul_1_r. reflexivity.
Qed.

End Mirror.

Section Margin.

Local Open Scope Z_scope.

(** A probability of at least 1/2: 1, or a 53-digit mantissa at exponent
    -53. *)
Lemma upper_probability_cases (p : float) :
  valid p = true -> fleb f0_5 p = true -> fleb p one = true ->
  p = one
  \/ (exists mx, p = S754_finite false mx (-53)
                 /\ 2 ^ 52 <= Z.pos mx < 2 ^ 53).
Proof.
  intros Hv Hh H1.
  assert (H0 : fleb zero p = true)
    by (destruct p as [[] | [] | | [] mx ex]; try discriminate; reflexivity).
  destruct (probability_cases p Hv H0 H1)
    as [(s & ->) | [-> | [(mx & -> & Hm) | (mx & ex & -> & Hm & He)]]].
  - destruct s; discriminate Hh.
  - left. reflexivity.
  - right. exists mx. split; [reflexivity | exact Hm].
  - unfold f0_5 in Hh. apply fleb_pos_finite in Hh. lia.
Qed.

(** |p - 1/2| for 0 < p < 1/2: a valid float of at most 1/2. *)
Lemma margin_lower (mx : positive) (ex : Z) :
  Z.pos mx < 2 ^ 53 -> -1074 <= ex <= -54 ->
  let m := fabs (fsub (S754_finite false mx ex) f0_5) in
  valid m = true /\ fleb zero m = true /\ fleb m f0_5 = true.
Proof.
  intros Hm He. cbv zeta.
  change (2 ^ 53) with 9007199254740992 in Hm.
  set (k := -53 - ex).
  assert (Hk : 1 <= k) by (unfold k; lia).
  assert (HK : 2 <= 2 ^ k).
  { change 2 with (2 ^ 1) at 1. apply Z.pow_le_mono_r; lia. }
  unfold fsub, SFsub, f0_5. cbv zeta.
  rewrite Z.min_l by lia.
  rewrite (shl_align_ge mx ex ex) by lia.
  rewrite (shl_align_le _ (-53) ex) by lia.
  cbn [fst cond_Zopp]. fold k.
  rewrite Z2Pos.id by lia.
  destruct (Z.pos mx - 4503599627370496 * 2 ^ k) as [| n | n] eqn:En;
    try lia.
  cbn [binary_normalize].
  destruct (Z.eq_dec ex (-54)) as [-> | Hne].
  - (* 1/4 <= p < 1/2: exact *)
    assert (EK : 2 ^ k = 2) by reflexivity. rewrite EK in En.
    pose proof (digits2_pos_lower n) as Hlo.
    assert (Hd : Z.pos (digits2_pos n) <= 53).
    { destruct (Z.le_gt_cases (Z.pos (digits2_pos n)) 53) as [| Hgt];
        [assumption |].
      assert (2 ^ 53 <= 2 ^ (Z.pos (digits2_pos n) - 1))
        by (apply Z.pow_le_mono_r; lia).
      change (2 ^ 53) with 9007199254740992 in *. lia. }
    pose proof (binary_round_exact true n 0 (-54) Hd ltac:(lia)) as H.
    cbv zeta in H.
    rewrite Z.mul_1_r, Z.sub_0_r in H. cbn [Z.to_pos] in H.
    rewrite H by lia. cbn [fabs SFabs].
    split; [apply (normal_form_valid false n (-54) Hd); lia |].
    split; [reflexivity |].
    apply fleb_pos_finite. lia.
  - (* 0 < p < 1/4: rounded to 53 digits *)
    assert (Hk2 : 2 <= k) by (unfold k; lia).
    destruct (pow2_split (k - 1) ltac:(lia)) as (E52 & E53 & E1).
    replace (k - 1 + 1) with k in E1 by lia.
    assert (Hn : 2 ^ (52 + (k - 1)) <= Z.pos n < 2 ^ (53 + (k - 1))).
    { rewrite E52, E53.
      assert (2 <= 2 ^ (k - 1)).
      { change 2 with (2 ^ 1) at 1. apply Z.pow_le_mono_r; lia. }
      lia. }
    rewrite binary_round_sign.
    destruct (binary_round_normal n ex (k - 1) ltac:(lia) Hn)
      as (q' & Hr & ->); [unfold k; lia | unfold k; lia |].
    pose proof (rounds_to_range (Z.pos n) (k - 1) q' ltac:(lia) Hn Hr)
      as Hq.
    replace (ex + (k - 1)) with (-54) by (unfold k; lia).
    destruct (Z.ltb_spec q' (2 ^ 53)) as [Hlt | Hge];
      cbn [with_sign fabs SFabs].
    + split; [apply full_mantissa_valid; lia |].
      split; [reflexivity |].
      apply fleb_pos_finite. lia.
    + repeat split; reflexivity.
Qed.

End Margin.

(** For every probability of [0, 1] the margin the estimator returns is a
    valid float between 0 and 0.5, rounding included. *)
Theorem margin_in_range (text : str) (ai_prob : float) :
  valid ai_prob = true ->
  fleb zero ai_prob = true -> fleb ai_prob one = true ->
  let margin := est_margin (estimate_confidence text ai_prob) in
  valid margin = true
  /\ fleb zero margin = true
  /\ fleb margin f0_5 = true.
Proof.
  intros Hv H0 H1. cbv zeta.
  change (est_margin (estimate_confidence text ai_prob))
    with (fabs (fsub ai_prob f0_5)).
  destruct (probability_cases ai_prob Hv H0 H1)
    as [(s & ->) | [-> | [(mx & -> & Hm) | (mx & ex & -> & Hm & He)]]].
  - destruct s; repeat split; reflexivity.
  - repeat split; reflexivity.
  - destruct (fsub_half_upper mx Hm) as [(_ & ->) | (a & Ha & Hd & ->)].
    + repeat split; reflexivity.
    + cbn [fabs SFabs].
      pose proof (normal_form_valid false a (-53)%Z ltac:(lia)) as Hvalid.
      cbv zeta in Hvalid.
      replace (-53 + Z.pos (digits2_pos a) - 53)%Z
        with (Z.pos (digits2_pos a) - 106)%Z in Hvalid by lia.
      split; [apply Hvalid; lia |]. split; [reflexivity |].
      unfold f0_5. apply fleb_pos_finite. lia.
  - apply margin_lower; assumption.
Qed.

Lemma margin_in_range_witness :
  valid f0_1 = true /\ fleb zero f0_1 = true /\ fleb f0_1 one = true
  /\ fleb (est_margin (estimate_confidence (words 3) f0_1)) f0_5 = true.
Proof.
  split; [reflexivity |]. split; [reflexivity |]. split; [reflexivity |].
  apply (margin_in_range (words 3) f0_1); reflexivity.
Defined.

(** For a probability of at least 0.5 the estimator makes no difference
    between the AI probability and the human probability derived from it:
    margin, tier, indicators and word count are the same for p and for
    1 - p. *)
Theorem estimate_of_human_prob (text : str) (ai_prob : float) :
  valid ai_prob = true ->
  fleb f0_5 ai_prob = true -> fleb ai_prob one = true ->
  estimate_confidence text (human_prob ai_prob)
  = estimate_confidence text ai_prob.
Proof.
  intros Hv Hh H1.
  change (human_prob ai_prob) with (fsub one ai_prob).
  assert (E : fabs (fsub (fsub one ai_prob) f0_5)
              = fabs (fsub ai_prob f0_5)).
  { destruct (upper_probability_cases ai_prob Hv Hh H1)
      as [-> | (mx & -> & Hm)]; [reflexivity |].
    apply fsub_half_mirror. exact Hm. }
  unfold estimate_confidence. rewrite E. reflexivity.
Qed.

Lemma estimate_of_human_prob_witness :
  valid f0_95 = true /\ fleb f0_5 f0_95 = true /\ fleb f0_95 one = true
  /\ estimate_confidence (words 250) (human_prob f0_95)
     = estimate_confidence (words 250) f0_95.
Proof.
  split; [reflexivity |]. split; [reflexivity |]. split; [reflexivity |].
  apply (estimate_of_human_prob (words 250) f0_95); reflexivity.
Defined.

(** For a probability of at least 0.5, the AI probability is recovered from
    the human probability: 1 - (1 - p) is p. *)
Theorem human_prob_involutive (ai_prob : float) :
  valid ai_prob = true ->
  fleb f0_5 ai_prob = true -> fleb ai_prob one = true ->
  human_prob (human_prob ai_prob) = ai_prob.
Proof.
  intros Hv Hh H1.
  change (human_prob (human_prob ai_prob))
    with (fsub one (fsub one ai_prob)).
  destruct (upper_probability_cases ai_prob Hv Hh H1)
    as [-> | (mx & -> & Hm)]; [reflexivity |].
  apply fsub_one_twice. exact Hm.
Qed.

Lemma human_prob_involutive_witness :
  valid f0_62 = true /\ fleb f0_5 f0_62 = true /\ fleb f0_62 one = true
  /\ human_prob (human_prob f0_62) = f0_62.
Proof.
  split; [reflexivity |]. split; [reflexivity |]. split; [reflexivity |].
  apply (human_prob_involutive f0_62); reflexivity.
Defined.


(** * Further properties of the word count *)

Section Words.

Lemma split_ws_lstrip (s : str) : split_ws (lstrip s) [] = split_ws s [].
Proof.
  induction s as [| c s IH]; [reflexivity |].
  simpl. destruct (isspace c) eqn:Hc; [exact IH |].
  simpl. rewrite Hc. reflexivity.
Qed.

Lemma split_ws_blank (w tok : str) :
  blank w = true ->
  split_ws w tok = match tok with [] => [] | _ => [rev tok] end.
Proof.
  unfold blank. revert tok. induction w as [| c w IH]; intros tok Hb;
    [reflexivity |].
  simpl in *. destruct (isspace c); [| discriminate].
  destruct tok; rewrite (IH [] Hb); reflexivity.
Qed.

Lemma split_ws_app_blank (s w tok : str) :
  blank w = true -> split_ws (s ++ w)%list tok = split_ws s tok.
Proof.
  intros Hb. revert tok. induction s as [| c s IH]; intros tok.
  - simpl. apply split_ws_blank. exact Hb.
  - simpl. destruct (isspace c); [destruct tok |]; rewrite IH; reflexivity.
Qed.

Lemma lstrip_decompose (s : str) :
  exists w, blank w = true /\ s = (w ++ lstrip s)%list.
Proof.
  induction s as [| c s (w & Hw & IH)].
  - exists []. split; reflexivity.
  - simpl. destruct (isspace c) eqn:Hc.
    + exists (c :: w). split; [unfold blank in *; simpl; rewrite Hc; exact Hw |].
      simpl. f_equal. exact IH.
    + exists []. split; reflexivity.
Qed.

Lemma split_strip (s : str) : split (strip s) = split s.
Proof.
  unfold split, strip, rstrip. rewrite <- (split_ws_lstrip s).
  destruct (lstrip_decompose (rev (lstrip s))) as (w & Hw & E).
  apply (f_equal (@rev _)) in E. rewrite rev_involutive, rev_app_distr in E.
  rewrite E at 2. rewrite split_ws_app_blank; [reflexivity |].
  unfold blank in *. rewrite forallb_rev. exact Hw.
Qed.

Lemma count_runs_length (s : str) (in_token : bool) :
  (2 * count_runs in_token s
   <= length s + (if in_token then 0 else 1))%nat.
Proof.
  revert in_token. induction s as [| c s IH]; intros b; simpl.
  - destruct b; lia.
  - destruct (isspace c).
    + specialize (IH false). simpl in IH. destruct b; lia.
    + specialize (IH true). simpl in IH. destruct b; simpl; lia.
Qed.

End Words.

(** The words the estimator counts are non-empty and hold no whitespace,
    and joined in order they are the text with its whitespace taken out. *)
Theorem words_of_text (text : str) :
  Forall (fun w => w <> [] /\ existsb isspace w = false) (split text)
  /\ concat (split text) = List.filter (fun c => negb (isspace c)) text.
Proof.
  split; [apply split_tokens |].
  unfold split. rewrite split_ws_concat. reflexivity.
Qed.

(** The page tests the stripped text but hands the text as typed to the
    estimator; this changes nothing: leading and trailing whitespace do not
    affect any of the four results. *)
Theorem estimate_ignores_outer_whitespace (text : str) (ai_prob : float) :
  estimate_confidence (strip text) ai_prob
  = estimate_confidence text ai_prob.
Proof. unfold estimate_confidence. rewrite split_strip. reflexivity. Qed.

(** Words need separators: a text of n code points has at most (n + 1) / 2
    words. So a tier other than Low needs at least 199 code points and the
    tier High at least 399, whatever the probability. *)
Theorem tier_needs_length (text : str) (ai_prob : float) :
  let r := estimate_confidence text ai_prob in
  (2 * est_word_count r <= length text + 1)%nat
  /\ (est_confidence r <> Low_Confidence -> (199 <= length text)%nat)
  /\ (est_confidence r = High_Confidence -> (399 <= length text)%nat).
Proof.
  cbv zeta.
  assert (Hlen : (2 * length (split text) <= length text + 1)%nat).
  { rewrite word_count_tokens. apply (count_runs_length text false). }
  split; [exact Hlen |]. split.
  - rewrite est_confidence_cases. cbv zeta.
    destruct (Nat.ltb_spec (length (split text)) 100) as [Hlt | Hge];
      [simpl; congruence | intros _; lia].
  - intros H. apply est_high_inv in H. destruct H as (_ & H200 & _).
    apply Nat.ltb_ge in H200. lia.
Qed.

Lemma tier_needs_length_witness :
  est_confidence (estimate_confidence (words 250) f0_95) = High_Confidence
  /\ (399 <= length (words 250))%nat.
Proof.
  split; [reflexivity |].
  apply (tier_needs_length (words 250) f0_95). reflexivity.
Defined.

(** The warning is shown exactly when the button was pressed on a blank
    text, so never together with an inference. *)
Theorem warning_shown_iff
  (detector : str -> list (list item) + exn)
  (user_text : str) (analyze_btn : bool) :
  let run := app detector user_text analyze_btn in
  existsb is_warning (trace run) = analyze_btn && blank user_text
  /\ existsb is_inference (trace run)
     = analyze_btn && negb (blank user_text).
Proof.
  cbv zeta. destruct analyze_btn; [| split; reflexivity].
  destruct (blank user_text) eqn:Hb.
  - destruct (blank_run detector user_text Hb) as [-> _].
    split; reflexivity.
  - rewrite (app_analysis detector user_text Hb).
    destruct (detector user_text) as [[| outputs rest] | e];
      try (split; reflexivity).
    cbv zeta. rewrite show_result_events. unfold trace. cbn [snd].
    rewrite !existsb_app. split; reflexivity.
Qed.

Lemma stripped_nonempty_iff_has_word_witness :
  truthy (strip (of_string " a ")) = true
  /\ (1 <= est_word_count (estimate_confidence (of_string " a ") f0_5))%nat.
Proof.
  split; [reflexivity |].
  apply (stripped_nonempty_iff_has_word (of_string " a ") f0_5).
  reflexivity.
Defined.

(** * Symmetry of the margin around 0.5 *)

Section Symmetry.

Local Open Scope Z_scope.

(** Subtracting is adding the opposite. *)
Lemma fsub_fadd_fopp (x y : float) : fsub x y = fadd x (fopp y).
Proof.
  unfold fsub, fadd, fopp, SFsub, SFadd, SFopp.
  destruct x as [[] | [] | | sx mx ex], y as [[] | [] | | sy my ey];
    try reflexivity.
  cbv zeta. f_equal. destruct sy; simpl; lia.
Qed.

Lemma digits_le_53 (a : positive) :
  Z.pos a < 2 ^ 53 -> Z.pos (digits2_pos a) <= 53.
Proof.
  intros Ha. pose proof (digits2_pos_lower a) as Hlo.
  destruct (Z.le_gt_cases (Z.pos (digits2_pos a)) 53) as [| Hgt];
    [assumption |].
  assert (2 ^ 53 <= 2 ^ (Z.pos (digits2_pos a) - 1))
    by (apply Z.pow_le_mono_r; lia).
  lia.
Qed.

Lemma digits_scale (a : positive) (i : Z) :
  0 <= i ->
  Z.pos (digits2_pos (Z.to_pos (Z.pos a * 2 ^ i)))
  = Z.pos (digits2_pos a) + i.
Proof.
  intros Hi.
  pose proof (digits2_pos_lower a) as Hlo.
  pose proof (digits2_pos_upper a) as Hup.
  set (d := Z.pos (digits2_pos a)) in *.
  assert (Hd1 : 1 <= d) by (unfold d; lia).
  assert (HI : 0 < 2 ^ i) by (apply Z.pow_pos_nonneg; lia).
  apply digits2_pos_bounds. rewrite Z2Pos.id by nia.
  replace (d + i - 1) with (d - 1 + i) by lia.
  rewrite !Z.pow_add_r by lia. nia.
Qed.

(** The normal form does not depend on how many trailing zero bits the
    mantissa is written with. *)
Lemma normal_form_scale (a e i : Z) :
  0 <= a -> 0 <= i -> a * 2 ^ i < 2 ^ 53 ->
  normal_form (a * 2 ^ i) (e - i) = normal_form a e.
Proof.
  intros Ha Hi Hlt.
  assert (HI : 0 < 2 ^ i) by (apply Z.pow_pos_nonneg; lia).
  destruct a as [| a | a]; try lia; [reflexivity |].
  destruct (Z.pos a * 2 ^ i) as [| m | m] eqn:Em; try lia.
  unfold normal_form.
  assert (Hdm : Z.pos (digits2_pos m) = Z.pos (digits2_pos a) + i).
  { rewrite <- (digits_scale a i Hi), Em. reflexivity. }
  pose proof (digits_le_53 m Hlt) as Hd.
  rewrite Hdm. f_equal; [| lia].
  f_equal. rewrite <- Em, <- Z.mul_assoc, <- Z.pow_add_r by lia.
  f_equal. f_equal. lia.
Qed.

(** Two numbers with the same normal form are equal. *)
Lemma normal_form_inj (a b e : Z) :
  0 <= a < 2 ^ 53 -> 0 <= b < 2 ^ 53 ->
  normal_form a e = normal_form b e -> a = b.
Proof.
  intros Ha Hb.
  destruct a as [| a | a], b as [| b | b]; try lia; try discriminate.
  unfold normal_form. intros H. injection H as Hm He.
  assert (Hd : Z.pos (digits2_pos a) = Z.pos (digits2_pos b)) by lia.
  rewrite <- Hd in Hm.
  pose proof (digits_le_53 a ltac:(lia)) as Hda.
  assert (HS : 0 < 2 ^ (53 - Z.pos (digits2_pos a)))
    by (apply Z.pow_pos_nonneg; lia).
  apply (f_equal Z.pos) in Hm. rewrite !Z2Pos.id in Hm by nia.
  apply Z.mul_reg_r in Hm; [exact Hm | lia].
Qed.

(** Rounding a number of at most 53 digits gives its normal form, with the
    sign asked for. *)
Lemma binary_round_normal_form (s : bool) (a : positive) (e : Z) :
  Z.pos a < 2 ^ 53 ->
  -1074 <= e + Z.pos (digits2_pos a) - 53 ->
  e + Z.pos (digits2_pos a) - 53 <= 970 ->
  fabs (binary_round prec emax s a e) = normal_form (Z.pos a) e.
Proof.
  intros Ha He1 He2.
  pose proof (digits_le_53 a Ha) as Hd.
  pose proof (binary_round_exact s a 0 e Hd ltac:(lia) He1 He2) as H.
  rewrite Z.mul_1_r, Z.sub_0_r in H. cbn [Z.to_pos] in H.
  rewrite H. reflexivity.
Qed.

End Symmetry.

Section Margins.

Local Open Scope Z_scope.

(** The margin of 0.5 + d, for 0 < d < 1/2 with mantissa [md] and exponent
    [ed]: d is rounded to a multiple [q' - 2^52] of 2^-53. *)
Lemma margin_plus (md : positive) (ed : Z) :
  Z.pos md < 2 ^ 53 -> -1074 <= ed <= -54 ->
  exists q',
    rounds_to (4503599627370496 * 2 ^ (-53 - ed) + Z.pos md) (-53 - ed) q'
    /\ fabs (fsub (fadd f0_5 (S754_finite false md ed)) f0_5)
       = if q' <? 2 ^ 53 then normal_form (q' - 2 ^ 52) (-53) else f0_5.
Proof.
  intros Hm He. change (2 ^ 53) with 9007199254740992 in *.
  change (2 ^ 52) with 4503599627370496 in *.
  set (j := -53 - ed).
  assert (Hj : 1 <= j) by (unfold j; lia).
  assert (HL : 2 <= 2 ^ j).
  { change 2 with (2 ^ 1) at 1. apply Z.pow_le_mono_r; lia. }
  destruct (pow2_split j ltac:(lia)) as (E52 & E53 & _).
  unfold fadd, SFadd, f0_5 at 1. cbv zeta.
  rewrite Z.min_r by lia.
  rewrite (shl_align_le _ (-53) ed) by lia.
  rewrite (shl_align_ge md ed ed) by lia.
  cbn [fst cond_Zopp]. fold j.
  rewrite Z2Pos.id by lia.
  destruct (4503599627370496 * 2 ^ j + Z.pos md) as [| N | N] eqn:EN;
    try lia.
  cbn [binary_normalize].
  assert (HN : 2 ^ (52 + j) <= Z.pos N < 2 ^ (53 + j))
    by (rewrite E52, E53; lia).
  destruct (binary_round_normal N ed j Hj HN) as (q' & Hr & ->);
    [unfold j; lia | unfold j; lia |].
  exists q'. split; [exact Hr |].
  pose proof (rounds_to_range (Z.pos N) j q' ltac:(lia) HN Hr) as Hq.
  change (2 ^ 53) with 9007199254740992 in *.
  change (2 ^ 52) with 4503599627370496 in *.
  replace (ed + j) with (-53) by (unfold j; lia).
  destruct (Z.ltb_spec q' 9007199254740992) as [Hlt | Hge];
    [| reflexivity].
  destruct q' as [| q | q]; try lia. cbn [Z.to_pos].
  destruct (fsub_half_upper q) as [(Eq & ->) | (a & Ha & Hda & ->)];
    change (2 ^ 53) with 9007199254740992 in *;
    change (2 ^ 52) with 4503599627370496 in *; [lia | |].
  - rewrite Eq. reflexivity.
  - rewrite <- Ha. cbn [fabs SFabs normal_form]. f_equal. lia.
Qed.

(** The margin of 0.5 - d for 1/4 <= d < 1/2: both subtractions are exact
    and the margin is d. *)
Lemma margin_minus_exact (md : positive) :
  2 ^ 52 <= Z.pos md < 2 ^ 53 ->
  fabs (fsub (fsub f0_5 (S754_finite false md (-54))) f0_5)
  = S754_finite false md (-54).
Proof.
  intros Hm. change (2 ^ 53) with 9007199254740992 in *.
  change (2 ^ 52) with 4503599627370496 in *.
  unfold fsub at 2. unfold SFsub, f0_5 at 1. cbv zeta.
  change (Z.min (-53) (-54)) with (-54).
  change (fst (shl_align 4503599627370496 (-53) (-54)))
    with 9007199254740992%positive.
  rewrite (shl_align_ge md (-54) (-54)) by lia.
  cbn [fst cond_Zopp].
  destruct (9007199254740992 - Z.pos md) as [| a | a] eqn:Ea; try lia.
  cbn [binary_normalize].
  assert (Ha : Z.pos a < 2 ^ 53)
    by (change (2 ^ 53) with 9007199254740992; lia).
  pose proof (digits_le_53 a Ha) as Hd.
  pose proof (digits2_pos_lower a) as Hlo.
  pose proof (digits2_pos_upper a) as Hup.
  pose proof (binary_round_exact false a 0 (-54) Hd ltac:(lia)) as H.
  rewrite Z.mul_1_r, Z.sub_0_r in H. cbn [Z.to_pos] in H.
  rewrite H by lia. clear H.
  set (d := Z.pos (digits2_pos a)) in *.
  assert (Hd1 : 1 <= d) by (unfold d; lia).
  set (S := 2 ^ (53 - d)).
  assert (HS : 1 <= S).
  { change 1 with (2 ^ 0). apply Z.pow_le_mono_r; lia. }
  assert (E2S : 2 ^ (54 - d) = 2 * S).
  { unfold S. replace (54 - d) with (Z.succ (53 - d)) by lia.
    rewrite Z.pow_succ_r by lia. reflexivity. }
  unfold fsub, SFsub, f0_5. cbv zeta.
  rewrite Z.min_l by lia.
  rewrite (shl_align_ge _ (-54 + d - 53) (-54 + d - 53)) by lia.
  rewrite (shl_align_le _ (-53) (-54 + d - 53)) by lia.
  cbn [fst cond_Zopp].
  replace (-53 - (-54 + d - 53)) with (54 - d) by lia. rewrite E2S.
  rewrite !Z2Pos.id by nia.
  replace (Z.pos a * S - 4503599627370496 * (2 * S))
    with (- (Z.pos md * S)) by nia.
  assert (HmS : 0 < Z.pos md * S) by nia.
  destruct (Z.pos md * S) as [| m | m] eqn:Em; try lia.
  change (- Z.pos m) with (Z.neg m). cbn [binary_normalize].
  assert (Hdm : Z.pos (digits2_pos md) = 53).
  { apply digits2_pos_bounds.
    change (2 ^ (53 - 1)) with 4503599627370496.
    change (2 ^ 53) with 9007199254740992. lia. }
  pose proof (binary_round_exact true md (53 - d) (-54)) as H.
  cbv zeta in H. rewrite Hdm in H. fold S in H. rewrite Em in H.
  cbn [Z.to_pos] in H.
  replace (-54 - (53 - d)) with (-54 + d - 53) in H by lia.
  rewrite H by lia.
  change (2 ^ (53 - 53)) with 1. rewrite Z.mul_1_r. reflexivity.
Qed.

(** The margin of 0.5 - d for 0 < d < 1/4: 0.5 - d is rounded to a multiple
    [q''] of 2^-54, and the margin is [2^53 - q''] times 2^-54, exactly. *)
Lemma margin_minus (md : positive) (ed : Z) :
  Z.pos md < 2 ^ 53 -> -1074 <= ed <= -55 ->
  exists q'',
    rounds_to (4503599627370496 * 2 ^ (-53 - ed) - Z.pos md) (-54 - ed) q''
    /\ 2 ^ 52 <= q'' <= 2 ^ 53
    /\ fabs (fsub (fsub f0_5 (S754_finite false md ed)) f0_5)
       = normal_form (2 ^ 53 - q'') (-54).
Proof.
  intros Hm He. change (2 ^ 53) with 9007199254740992 in *.
  change (2 ^ 52) with 4503599627370496 in *.
  set (k := -54 - ed).
  assert (Hk : 1 <= k) by (unfold k; lia).
  assert (HH : 2 <= 2 ^ k).
  { change 2 with (2 ^ 1) at 1. apply Z.pow_le_mono_r; lia. }
  destruct (pow2_split k ltac:(lia)) as (E52 & E53 & E1).
  replace (-53 - ed) with (k + 1) by (unfold k; lia). rewrite E1.
  unfold fsub at 2. unfold SFsub, f0_5 at 1. cbv zeta.
  rewrite Z.min_r by lia.
  rewrite (shl_align_le _ (-53) ed) by lia.
  rewrite (shl_align_ge md ed ed) by lia.
  cbn [fst cond_Zopp].
  replace (-53 - ed) with (k + 1) by (unfold k; lia). rewrite E1.
  rewrite Z2Pos.id by lia.
  destruct (4503599627370496 * (2 * 2 ^ k) - Z.pos md) as [| N | N] eqn:EN;
    try lia.
  cbn [binary_normalize].
  assert (HN : 2 ^ (52 + k) <= Z.pos N < 2 ^ (53 + k))
    by (rewrite E52, E53; lia).
  destruct (binary_round_normal N ed k Hk HN) as (q'' & Hr & ->);
    [unfold k; lia | unfold k; lia |].
  exists q''. split; [exact Hr |].
  pose proof (rounds_to_range (Z.pos N) k q'' ltac:(lia) HN Hr) as Hq.
  change (2 ^ 53) with 9007199254740992 in *.
  change (2 ^ 52) with 4503599627370496 in *.
  split; [exact Hq |].
  replace (ed + k) with (-54) by (unfold k; lia).
  destruct (Z.ltb_spec q'' 9007199254740992) as [Hlt | Hge].
  - destruct q'' as [| q | q]; try lia. cbn [Z.to_pos].
    unfold fsub, SFsub, f0_5. cbv zeta.
    change (Z.min (-54) (-53)) with (-54).
    rewrite (shl_align_ge q (-54) (-54)) by lia.
    change (fst (shl_align 4503599627370496 (-53) (-54)))
      with 9007199254740992%positive.
    cbn [fst cond_Zopp].
    destruct (9007199254740992 - Z.pos q) as [| c | c] eqn:Ec; try lia.
    replace (Z.pos q - 9007199254740992) with (Z.neg c) by lia.
    cbn [binary_normalize].
    assert (Hc : Z.pos c < 2 ^ 53)
      by (change (2 ^ 53) with 9007199254740992; lia).
    pose proof (digits_le_53 c Hc) as Hd.
    apply binary_round_normal_form; [exact Hc | lia | lia].
  - assert (q'' = 9007199254740992) by lia. subst q''. reflexivity.
Qed.

End Margins.

Section Characterisation.

Local Open Scope Z_scope.

Lemma even_double (x : Z) : Z.even (2 * x) = true.
Proof. rewrite Z.even_mul. reflexivity. Qed.

Lemma even_double_succ (x : Z) : Z.even (2 * x + 1) = false.
Proof. rewrite Z.even_add, Z.even_mul. reflexivity. Qed.

Lemma normal_form_full (m : positive) (e : Z) :
  2 ^ 52 <= Z.pos m < 2 ^ 53 ->
  normal_form (Z.pos m) e = S754_finite false m e.
Proof.
  intros Hm. unfold normal_form.
  rewrite (digits2_pos_bounds m 53) by (change (53 - 1) with 52; exact Hm).
  change (2 ^ (53 - 53)) with 1. rewrite Z.mul_1_r. cbn [Z.to_pos].
  f_equal. lia.
Qed.

(** For 0 < d < 1/4 the two margins agree exactly when d is within a
    quarter of 2^-53 of a multiple of 2^-53. *)
Lemma margins_agree_small (md : positive) (ed : Z) :
  Z.pos md < 2 ^ 53 -> -1074 <= ed <= -55 ->
  near_grid (S754_finite false md ed) = true
  <-> fabs (fsub (fadd f0_5 (S754_finite false md ed)) f0_5)
      = fabs (fsub (fsub f0_5 (S754_finite false md ed)) f0_5).
Proof.
  intros Hm He.
  destruct (margin_plus md ed Hm ltac:(lia)) as (q' & Hp & ->).
  destruct (margin_minus md ed Hm He) as (q'' & Hn & Hq'' & ->).
  change (2 ^ 53) with 9007199254740992 in *.
  change (2 ^ 52) with 4503599627370496 in *.
  unfold near_grid.
  destruct (Z.leb_spec (-53) ed) as [Hle | _]; [lia |]. cbv zeta.
  set (k := -54 - ed) in *.
  assert (Hk : 1 <= k) by (unfold k; lia).
  replace (-53 - ed) with (k + 1) in * by (unfold k; lia).
  destruct (pow2_split k ltac:(lia)) as (_ & _ & E1).
  assert (HH : 2 <= 2 ^ k).
  { change 2 with (2 ^ 1) at 1. apply Z.pow_le_mono_r; lia. }
  assert (HL0 : 0 < 2 ^ (k + 1)) by lia.
  assert (HH0 : 0 < 2 ^ k) by lia.
  pose proof (Z.div_mod (Z.pos md) (2 ^ (k + 1)) ltac:(lia)) as Hdm.
  pose proof (Z.mod_pos_bound (Z.pos md) (2 ^ (k + 1)) HL0) as Hrb.
  set (n := Z.pos md / 2 ^ (k + 1)) in *.
  set (r := Z.pos md mod 2 ^ (k + 1)) in *.
  assert (Hn0 : 0 <= n) by (apply Z.div_pos; lia).
  assert (Hn51 : n < 2251799813685248) by nia.
  (* the rounding of 0.5 + d *)
  assert (Ep : 4503599627370496 * 2 ^ (k + 1) + Z.pos md
               = 2 ^ (k + 1) * (4503599627370496 + n) + r) by lia.
  apply (rounds_to_inv _ _ _ _ _ HL0 Hrb Ep) in Hp.
  assert (Hq' : q' = 4503599627370496 + n \/ q' = 4503599627370496 + n + 1)
    by lia.
  destruct (Z.ltb_spec q' 9007199254740992) as [_ | Hge]; [| lia].
  rewrite <- (normal_form_scale (q' - 4503599627370496) (-53) 1)
    by (change (2 ^ 1) with 2; change (2 ^ 53) with 9007199254740992; lia).
  change (-53 - 1) with (-54). change (2 ^ 1) with 2.
  assert (Hiff : (q' - 4503599627370496) * 2 = 9007199254740992 - q''
                 <-> (4 * r <= 2 ^ (k + 1) \/ 3 * 2 ^ (k + 1) <= 4 * r)).
  { rewrite E1 in *.
    destruct (Z.lt_ge_cases r (2 ^ k)) as [Hlo | Hhi].
    - destruct (Z.eq_dec r 0) as [Hr0 | Hr0].
      + assert (En : 4503599627370496 * (2 * 2 ^ k) - Z.pos md
                     = 2 ^ k * (9007199254740992 - 2 * n) + 0) by lia.
        apply (rounds_to_inv _ _ _ (9007199254740992 - 2 * n) 0 HH0
                 ltac:(lia) En) in Hn. lia.
      + assert (En : 4503599627370496 * (2 * 2 ^ k) - Z.pos md
                     = 2 ^ k * (2 * (4503599627370496 - n - 1) + 1)
                       + (2 ^ k - r)) by lia.
        apply (rounds_to_inv _ _ _ (2 * (4503599627370496 - n - 1) + 1)
                 (2 ^ k - r) HH0 ltac:(lia) En) in Hn.
        rewrite even_double_succ in Hn. lia.
    - destruct (Z.eq_dec r (2 ^ k)) as [Hr0 | Hr0].
      + assert (En : 4503599627370496 * (2 * 2 ^ k) - Z.pos md
                     = 2 ^ k * (9007199254740992 - 2 * n - 1) + 0) by lia.
        apply (rounds_to_inv _ _ _ (9007199254740992 - 2 * n - 1) 0 HH0
                 ltac:(lia) En) in Hn. lia.
      + assert (En : 4503599627370496 * (2 * 2 ^ k) - Z.pos md
                     = 2 ^ k * (2 * (4503599627370496 - n - 1))
                       + (2 * 2 ^ k - r)) by lia.
        apply (rounds_to_inv _ _ _ (2 * (4503599627370496 - n - 1))
                 (2 * 2 ^ k - r) HH0 ltac:(lia) En) in Hn.
        rewrite even_double in Hn. lia. }
  split.
  - intros Hg. apply orb_true_iff in Hg.
    f_equal. apply Hiff.
    destruct Hg as [Hg | Hg]; apply Z.leb_le in Hg; [left | right]; exact Hg.
  - intros Heq.
    apply normal_form_inj in Heq;
      [| change (2 ^ 53) with 9007199254740992; lia
       | change (2 ^ 53) with 9007199254740992; lia].
    apply Hiff in Heq. apply orb_true_iff.
    destruct Heq as [Hg | Hg]; [left | right]; apply Z.leb_le; exact Hg.
Qed.

End Characterisation.

Section Quarter.

Local Open Scope Z_scope.

(** For 1/4 <= d < 1/2 the two margins agree exactly when d is a multiple
    of 2^-53, that is when its mantissa is even. *)
Lemma margins_agree_large (md : positive) :
  2 ^ 52 <= Z.pos md < 2 ^ 53 ->
  near_grid (S754_finite false md (-54)) = true
  <-> fabs (fsub (fadd f0_5 (S754_finite false md (-54))) f0_5)
      = fabs (fsub (fsub f0_5 (S754_finite false md (-54))) f0_5).
Proof.
  intros Hm. pose proof Hm as Hm0.
  destruct (margin_plus md (-54) ltac:(lia) ltac:(lia)) as (q' & Hp & ->).
  rewrite (margin_minus_exact md Hm).
  unfold near_grid. change (-53 <=? -54) with false. cbv iota zeta.
  rewrite <- (normal_form_full md (-54) Hm).
  change (2 ^ 53) with 9007199254740992 in Hm, Hp |- *.
  change (2 ^ 52) with 4503599627370496 in Hm, Hp |- *.
  change (-53 - -54) with 1 in *. change (2 ^ 1) with 2 in *.
  pose proof (Z.div_mod (Z.pos md) 2 ltac:(lia)) as Hdm.
  pose proof (Z.mod_pos_bound (Z.pos md) 2 ltac:(lia)) as Hrb.
  set (n := Z.pos md / 2) in *. set (r := Z.pos md mod 2) in *.
  assert (Ep : 4503599627370496 * 2 + Z.pos md
               = 2 ^ 1 * (4503599627370496 + n) + r)
    by (change (2 ^ 1) with 2; lia).
  assert (H2 : 0 < 2 ^ 1) by (change (2 ^ 1) with 2; lia).
  assert (Hrb' : 0 <= r < 2 ^ 1) by (change (2 ^ 1) with 2; lia).
  apply (rounds_to_inv _ 1 _ (4503599627370496 + n) r H2 Hrb' Ep) in Hp.
  change (2 ^ 1) with 2 in Hp.
  destruct (Z.ltb_spec q' 9007199254740992) as [Hlt | Hge].
  - rewrite <- (normal_form_scale (q' - 4503599627370496) (-53) 1)
      by (change (2 ^ 1) with 2; change (2 ^ 53) with 9007199254740992;
          lia).
    change (-53 - 1) with (-54). change (2 ^ 1) with 2.
    split.
    + intros Hg. apply orb_true_iff in Hg. f_equal.
      destruct Hg as [Hg | Hg]; apply Z.leb_le in Hg; lia.
    + intros Heq.
      apply normal_form_inj in Heq;
        [| change (2 ^ 53) with 9007199254740992; lia
         | change (2 ^ 53) with 9007199254740992; lia].
      apply orb_true_iff. left. apply Z.leb_le. lia.
  - split.
    + intros Hg. apply orb_true_iff in Hg. exfalso.
      destruct Hg as [Hg | Hg]; apply Z.leb_le in Hg; lia.
    + rewrite (normal_form_full md (-54) Hm0). unfold f0_5.
      intros Heq. injection Heq as _ Heq. lia.
Qed.

End Quarter.

Section Deviation.

Local Open Scope Z_scope.

(** A valid finite float: fewer than 54 digits, an exponent of at least
    -1074, and 53 digits above that exponent. *)
Lemma valid_finite_inv (s : bool) (m : positive) (e : Z) :
  valid (S754_finite s m e) = true ->
  Z.pos m < 2 ^ 53 /\ -1074 <= e /\ (-1074 < e -> 2 ^ 52 <= Z.pos m).
Proof.
  unfold valid, valid_binary, bounded, canonical_mantissa. intros Hv.
  apply andb_true_iff in Hv. destruct Hv as [Hc _].
  apply Z.eqb_eq in Hc. unfold fexp, SpecFloat.emin, prec, emax in Hc.
  pose proof (digits2_pos_lower m) as Hlo.
  pose proof (digits2_pos_upper m) as Hup.
  set (d := Z.pos (digits2_pos m)) in *.
  assert (Hd : 1 <= d <= 53) by (unfold d; lia).
  split; [| split].
  - eapply Z.lt_le_trans; [exact Hup |]. apply Z.pow_le_mono_r; lia.
  - lia.
  - intros He. replace 52 with (d - 1) by lia. exact Hlo.
Qed.

(** Two results for the same text are equal exactly when their margins
    are. *)
Lemma estimate_eq_iff (text : str) (p q : float) :
  estimate_confidence text p = estimate_confidence text q
  <-> fabs (fsub p f0_5) = fabs (fsub q f0_5).
Proof.
  unfold estimate_confidence. split.
  - intros H. injection H as _ _ _ H. exact H.
  - intros ->. reflexivity.
Qed.

(** The two margins of a non-negative deviation d <= 1/2 agree exactly when
    d is near the grid of 2^-53. *)
Lemma margins_agree_iff (md : positive) (ed : Z) :
  valid (S754_finite false md ed) = true ->
  fleb (S754_finite false md ed) f0_5 = true ->
  near_grid (S754_finite false md ed) = true
  <-> fabs (fsub (fadd f0_5 (S754_finite false md ed)) f0_5)
      = fabs (fsub (fsub f0_5 (S754_finite false md ed)) f0_5).
Proof.
  intros Hv Hle.
  destruct (valid_finite_inv _ _ _ Hv) as (Hm & He & Hn).
  unfold f0_5 in Hle. apply fleb_pos_finite in Hle.
  change (2 ^ 52) with 4503599627370496 in Hn.
  destruct (Z.eq_dec ed (-53)) as [-> | Hne53].
  - assert (E : md = 4503599627370496%positive) by lia. subst md.
    split; reflexivity.
  - destruct (Z.eq_dec ed (-54)) as [-> | Hne54].
    + apply margins_agree_large.
      change (2 ^ 52) with 4503599627370496. lia.
    + apply margins_agree_small; [exact Hm | lia].
Qed.

End Deviation.

(** C7, as the code has it. For a float d with |d| <= 0.5, so that 0.5 + d
    and 0.5 - d are probabilities, [estimate_confidence] returns the same
    margin, tier and indicators (and word count) for 0.5 + d and for
    0.5 - d if and only if d lies within 2^-55 of a multiple of 2^-53.
    The sums 0.5 + d are rounded to multiples of 2^-53 and the differences
    0.5 - d to the finer grid below 0.5; the two roundings of d agree in
    that case and in no other. *)
Theorem margin_symmetric_iff_near_grid (text : str) (d : float) :
  valid d = true ->
  fleb (fabs d) f0_5 = true ->
  near_grid d = true
  <-> estimate_confidence text (fadd f0_5 d)
      = estimate_confidence text (fsub f0_5 d).
Proof.
  intros Hv Hle. rewrite estimate_eq_iff.
  destruct d as [[] | [] | | s md ed]; try discriminate Hle;
    try (split; reflexivity).
  destruct s.
  - (* a negative deviation: the two sides change places *)
    change (S754_finite true md ed) with (fopp (S754_finite false md ed)).
    rewrite <- fsub_fadd_fopp.
    rewrite (fsub_fadd_fopp f0_5 (fopp (S754_finite false md ed))).
    change (fopp (fopp (S754_finite false md ed)))
      with (S754_finite false md ed).
    change (near_grid (fopp (S754_finite false md ed)))
      with (near_grid (S754_finite false md ed)).
    rewrite (margins_agree_iff md ed Hv Hle). split; intros H; symmetry;
      exact H.
  - apply margins_agree_iff; assumption.
Qed.

Lemma margin_symmetric_iff_near_grid_witness :
  valid f0_1 = true
  /\ fleb (fabs f0_1) f0_5 = true
  /\ near_grid f0_1 = true
  /\ estimate_confidence (words 250) (fadd f0_5 f0_1)
     = estimate_confidence (words 250) (fsub f0_5 f0_1).
Proof.
  split; [reflexivity |]. split; [reflexivity |]. split; [reflexivity |].
  apply (margin_symmetric_iff_near_grid (words 250) f0_1); reflexivity.
Defined.

(** Deviations on either side of the line: 0.1, 0.15, 0.25 and every
    multiple of 2^-53 are near the grid; 0.2, 0.3 and 0.10000000000000002
    are not. *)
Lemma near_grid_examples :
  near_grid f0_1 = true /\ near_grid f0_15 = true
  /\ near_grid f0_25 = true
  /\ near_grid f0_2 = false
  /\ near_grid (S754_finite false 5404319552844595 (-54)) = false
  /\ near_grid above_0_1 = false.
Proof. repeat split; reflexivity. Qed.
